(** * db_connection.py: configuration loading, connection management,
      scoped cursors and schema execution.

    A shallow embedding of [src/db_connection.py].  Python exceptions are an
    inductive type, methods are computations in a state-and-exception monad,
    the MySQL driver and the JSON decoder are parameters of the development,
    and every call into the driver is recorded in a trace so that "invoked
    exactly once" and "invoked before" are statements about that trace. *)

From Stdlib Require Import ZArith Ascii String.
From stdpp Require Import gmap strings list.

Local Open Scope string_scope.
Local Open Scope list_scope.

(** ** Exceptions *)

(** The exception classes the module can meet.  [Error] is
    [mysql.connector.Error] (with all its subclasses); the others are
    builtins.  [Exception] stands for any other exception an operation
    block may raise. *)
Inductive exn : Type :=
| FileNotFoundError (msg : string)
| OSError (msg : string)
| ValueError (msg : string)
| KeyError (key : string)
| TypeError (msg : string)
| AttributeError (msg : string)
| Error (msg : string)
| Exception (msg : string).

(** [isinstance(e, Error)], the test of every [except Error as e] clause. *)
Definition isinstance_Error (e : exn) : bool :=
  match e with
  | Error _ => true
  | _ => false
  end.

Inductive result (A : Type) : Type :=
| Ok (a : A)
| Raise (e : exn).
Arguments Ok {A} a.
Arguments Raise {A} e.

(** ** JSON values, as [json.load] builds them *)

#[warnings="-register-all"]
Inductive json : Type :=
| JNull
| JBool (b : bool)
| JInt (n : Z)
| JFloat (repr : string)
| JStr (s : string)
| JList (l : list json)
| JDict (m : gmap string json).

Fixpoint is_prefix (p s : string) : bool :=
  match p, s with
  | EmptyString, _ => true
  | String a p', String b s' => if decide (a = b) then is_prefix p' s' else false
  | String _ _, EmptyString => false
  end.

(** [needle in haystack] on two [str]. *)
Fixpoint is_substring (needle haystack : string) : bool :=
  is_prefix needle haystack ||
  match haystack with
  | EmptyString => false
  | String _ rest => is_substring needle rest
  end.

Definition is_JStr (key : string) (v : json) : bool :=
  match v with
  | JStr s => bool_decide (s = key)
  | _ => false
  end.

(** [key in v] for a [str] key: membership of a key in a dict, of an element
    in a list, of a substring in a str; other values are not iterable. *)
Definition py_contains (key : string) (v : json) : result bool :=
  match v with
  | JDict m => Ok (bool_decide (is_Some (m !! key)))
  | JList l => Ok (existsb (is_JStr key) l)
  | JStr s => Ok (is_substring key s)
  | _ => Raise (TypeError "argument is not iterable")
  end.

(** [v[key]] for a [str] key. *)
Definition py_getitem (v : json) (key : string) : result json :=
  match v with
  | JDict m =>
      match m !! key with
      | Some x => Ok x
      | None => Raise (KeyError key)
      end
  | JList _ => Raise (TypeError "list indices must be integers or slices, not str")
  | JStr _ => Raise (TypeError "string indices must be integers, not 'str'")
  | _ => Raise (TypeError "object is not subscriptable")
  end.

(** [v.get(key, dflt)]: only a dict has the method. *)
Definition py_get (v : json) (key : string) (dflt : json) : result json :=
  match v with
  | JDict m => Ok (default dflt (m !! key))
  | _ => Raise (AttributeError "object has no attribute 'get'")
  end.

(** ** The state-and-exception monad *)

Definition M (St A : Type) : Type := St -> result A * St.

Definition ret {St A} (a : A) : M St A := fun s => (Ok a, s).

Definition raise {St A} (e : exn) : M St A := fun s => (Raise e, s).

Definition bind {St A B} (m : M St A) (k : A -> M St B) : M St B :=
  fun s =>
    match m s with
    | (Ok a, s') => k a s'
    | (Raise e, s') => (Raise e, s')
    end.

Declare Scope py_scope.
Delimit Scope py_scope with py.
Notation "x <- m ;; k" := (bind m (fun x => k))
  (at level 100, m at next level, right associativity) : py_scope.
Notation "m ;; k" := (bind m (fun _ => k))
  (at level 100, right associativity) : py_scope.
Local Open Scope py_scope.

Definition gets {St A} (f : St -> A) : M St A := fun s => (Ok (f s), s).

Definition modify {St} (f : St -> St) : M St unit := fun s => (Ok tt, f s).

(** A pure evaluation that may raise. *)
Definition eval {St A} (r : result A) : M St A := fun s => (r, s).

(** [try: m  except C as e: h e] where [caught] decides [isinstance(e, C)]. *)
Definition try_except {St A} (m : M St A) (caught : exn -> bool)
    (h : exn -> M St A) : M St A :=
  fun s =>
    match m s with
    | (Ok a, s') => (Ok a, s')
    | (Raise e, s') => if caught e then h e s' else (Raise e, s')
    end.

(** [try: m  finally: f].  The finaliser runs on every exit; an exception it
    raises replaces the outcome of [m]. *)
Definition try_finally {St A} (m : M St A) (f : M St unit) : M St A :=
  fun s =>
    match m s with
    | (r, s') =>
        match f s' with
        | (Ok _, s'') => (r, s'')
        | (Raise e, s'') => (Raise e, s'')
        end
    end.

(** Run a computation of an inner state inside a state that has one more
    component in front. *)
Definition up {L St A} (m : M St A) : M (L * St) A :=
  fun ls =>
    match m (snd ls) with
    | (r, s') => (r, (fst ls, s'))
    end.

(** A function (or generator) frame with one local variable, initialised to
    [l0] and dropped when the frame is left. *)
Definition with_local {L St A} (l0 : L) (m : M (L * St) A) : M St A :=
  fun s =>
    match m (l0, s) with
    | (r, ls) => (r, snd ls)
    end.

Definition get_local {L St} : M (L * St) L := gets fst.

Definition set_local {L St} (l : L) : M (L * St) unit :=
  modify (fun ls => (l, snd ls)).

(** [for x in xs: body x]. *)
Fixpoint for_each {St A} (xs : list A) (body : A -> M St unit) : M St unit :=
  match xs with
  | [] => ret tt
  | x :: xs' => body x ;; for_each xs' body
  end.

(** ** Python [str] operations used on the schema text

    A [str] is modelled by a Rocq [string] whose characters are code points
    below 256. *)

(** [ch.isspace()]: the whitespace code points below 256 are TAB, LF, VT, FF,
    CR, the separators FS, GS, RS, US, SPACE, NEL and NBSP. *)
Definition py_isspace (ch : ascii) : bool :=
  let n := nat_of_ascii ch in
  (Nat.leb 9 n && Nat.leb n 13) || (Nat.leb 28 n && Nat.leb n 32)
  || Nat.eqb n 133 || Nat.eqb n 160.

(** [s.lstrip()]. *)
Fixpoint lstrip (s : string) : string :=
  match s with
  | EmptyString => EmptyString
  | String ch rest => if py_isspace ch then lstrip rest else s
  end.

(** [s.rstrip()]: a character is kept when it is not whitespace or when
    something is kept after it. *)
Fixpoint rstrip (s : string) : string :=
  match s with
  | EmptyString => EmptyString
  | String ch rest =>
      match rstrip rest with
      | EmptyString => if py_isspace ch then EmptyString else String ch EmptyString
      | kept => String ch kept
      end
  end.

(** [s.strip()]. *)
Definition strip (s : string) : string := rstrip (lstrip s).

(** [s.split(sep)] for a one-character separator: one fragment more than
    there are separators, empty fragments included. *)
Fixpoint split (sep : ascii) (s : string) : list string :=
  match s with
  | EmptyString => [EmptyString]
  | String ch rest =>
      if decide (ch = sep) then EmptyString :: split sep rest
      else
        match split sep rest with
        | frag :: frags => String ch frag :: frags
        | [] => [String ch EmptyString]
        end
  end.

(** Truth value of a [str]: non-empty. *)
Definition truthy (s : string) : bool :=
  match s with
  | EmptyString => false
  | String _ _ => true
  end.

(** A fragment that is empty or made of whitespace only, in the words of the
    specification. *)
Fixpoint all_whitespace (s : string) : bool :=
  match s with
  | EmptyString => true
  | String ch rest => py_isspace ch && all_whitespace rest
  end.

(** [ch in s] for a character. *)
Fixpoint occurs (ch : ascii) (s : string) : bool :=
  match s with
  | EmptyString => false
  | String c rest => bool_decide (c = ch) || occurs ch rest
  end.

(** The last character of a [str], if any. *)
Fixpoint last_char (s : string) : option ascii :=
  match s with
  | EmptyString => None
  | String c EmptyString => Some c
  | String _ rest => last_char rest
  end.

(** [[stmt.strip() for stmt in schema_sql.split(';') if stmt.strip()]]. *)
Definition split_statements (schema_sql : string) : list string :=
  strip <$> filter (fun stmt => truthy (strip stmt) = true) (split ";" schema_sql).

(** ** The outside world: files, the driver, the console *)

(** What [open(path).read()] finds at a path that exists: a text, or an
    exception (a directory, a permission or decoding failure). *)
Inductive fnode : Type :=
| Readable (text : string)
| Unreadable (e : exn).

(** Driver objects are known by their identity. *)
Definition MySQLConnection : Type := nat.
Definition MySQLCursor : Type := nat.

(** A fetched row, kept in its printed form. *)
Definition row : Type := string.

(** The keyword arguments of [mysql.connector.connect]. *)
Record connect_args : Type := {
  host : json;
  port : json;
  user : json;
  password : json;
  database : json;
  charset : json
}.

(** What the module prints. *)
Inductive message : Type :=
| Msg_connected (db : json)
| Msg_connect_error (e : exn)
| Msg_closed
| Msg_database_error (e : exn)
| Msg_schema_executed (schema_file : string)
| Msg_schema_error (e : exn)
| Msg_version (version : row)
| Msg_test_failed (e : exn).

(** One entry of the trace per call into the driver and per [print]. *)
Inductive event : Type :=
| Call_connect (args : connect_args)
| Call_is_connected (cnx : MySQLConnection)
| Call_cursor (cnx : MySQLConnection) (dictionary : bool)
| Call_commit (cnx : MySQLConnection)
| Call_rollback (cnx : MySQLConnection)
| Call_close (cnx : MySQLConnection)
| Call_execute (cur : MySQLCursor) (operation : string)
| Call_fetchone (cur : MySQLCursor)
| Call_cursor_close (cur : MySQLCursor)
| Printed (msg : message).

(** The MySQL driver, a parameter: each operation acts on the driver's own
    state and returns or raises.  [is_connected] reports a [bool]. *)
Record Driver (dstate : Type) : Type := {
  drv_connect : connect_args -> dstate -> result MySQLConnection * dstate;
  drv_is_connected : MySQLConnection -> dstate -> bool * dstate;
  drv_cursor : MySQLConnection -> bool -> dstate -> result MySQLCursor * dstate;
  drv_commit : MySQLConnection -> dstate -> result unit * dstate;
  drv_rollback : MySQLConnection -> dstate -> result unit * dstate;
  drv_close : MySQLConnection -> dstate -> result unit * dstate;
  drv_execute : MySQLCursor -> string -> dstate -> result unit * dstate;
  drv_fetchone : MySQLCursor -> dstate -> result row * dstate;
  drv_cursor_close : MySQLCursor -> dstate -> result bool * dstate
}.
Arguments drv_connect {dstate} _ _ _.
Arguments drv_is_connected {dstate} _ _ _.
Arguments drv_cursor {dstate} _ _ _ _.
Arguments drv_commit {dstate} _ _ _.
Arguments drv_rollback {dstate} _ _ _.
Arguments drv_close {dstate} _ _ _.
Arguments drv_execute {dstate} _ _ _ _.
Arguments drv_fetchone {dstate} _ _ _.
Arguments drv_cursor_close {dstate} _ _ _.

Record world (dstate : Type) : Type := {
  files : gmap string fnode;
  server : dstate;
  trace : list event
}.
Arguments files {dstate} _.
Arguments server {dstate} _.
Arguments trace {dstate} _.

(** ** The two classes *)

Record DatabaseConfig : Type := {
  config_file : string;
  config : json
}.

Record DatabaseConnection : Type := {
  db_config : DatabaseConfig;
  connection : option MySQLConnection
}.

(** How often a call occurs in a stretch of the trace. *)
Definition count_event (p : event -> bool) (tr : list event) : nat :=
  length (List.filter p tr).

Definition is_commit (ev : event) : bool :=
  match ev with Call_commit _ => true | _ => false end.

Definition is_rollback (ev : event) : bool :=
  match ev with Call_rollback _ => true | _ => false end.


Definition is_execute (ev : event) : bool :=
  match ev with Call_execute _ _ => true | _ => false end.

Definition is_connect (ev : event) : bool :=
  match ev with Call_connect _ => true | _ => false end.

Definition is_close (ev : event) : bool :=
  match ev with Call_close _ => true | _ => false end.

(** ** A simulated server and sample files, for the examples *)

Record sim : Type := {
  sim_up : bool;
  sim_open : list MySQLConnection;
  sim_next : nat;
  sim_rejects : list string
}.

Definition sim_live (cnx : MySQLConnection) (d : sim) : bool :=
  bool_decide (cnx ∈ sim_open d).

Definition sim_fresh (d : sim) (open : list MySQLConnection) : sim :=
  {| sim_up := sim_up d; sim_open := open; sim_next := S (sim_next d);
     sim_rejects := sim_rejects d |}.

Definition sim_connect (args : connect_args) (d : sim)
    : result MySQLConnection * sim :=
  if sim_up d then (Ok (sim_next d), sim_fresh d (sim_next d :: sim_open d))
  else (Raise (Error "Can't connect to MySQL server"), d).

Definition sim_cursor (cnx : MySQLConnection) (dictionary : bool) (d : sim)
    : result MySQLCursor * sim :=
  if sim_live cnx d then (Ok (sim_next d), sim_fresh d (sim_open d))
  else (Raise (Error "MySQL Connection not available"), d).

Definition sim_transact (cnx : MySQLConnection) (d : sim) : result unit * sim :=
  if sim_live cnx d then (Ok tt, d)
  else (Raise (Error "MySQL Connection not available"), d).

Definition sim_close (cnx : MySQLConnection) (d : sim) : result unit * sim :=
  (Ok tt,
   {| sim_up := sim_up d;
      sim_open := filter (fun c => c <> cnx) (sim_open d);
      sim_next := sim_next d; sim_rejects := sim_rejects d |}).

Definition sim_execute (cur : MySQLCursor) (operation : string) (d : sim)
    : result unit * sim :=
  if bool_decide (operation ∈ sim_rejects d)
  then (Raise (Error "You have an error in your SQL syntax"), d)
  else (Ok tt, d).

Definition sim_driver : Driver sim := {|
  drv_connect := sim_connect;
  drv_is_connected := fun cnx d => (sim_live cnx d, d);
  drv_cursor := sim_cursor;
  drv_commit := sim_transact;
  drv_rollback := sim_transact;
  drv_close := sim_close;
  drv_execute := sim_execute;
  drv_fetchone := fun cur d => (Ok "{'VERSION()': '8.0.36'}", d);
  drv_cursor_close := fun cur d => (Ok true, d)
|}.

(** The simulated server with another answer to [is_connected], another
    [commit], and another exception for the statements it rejects. *)
Definition sim_variant (live : MySQLConnection -> sim -> bool)
    (commit : MySQLConnection -> sim -> result unit * sim) (refusal : exn)
    : Driver sim := {|
  drv_connect := sim_connect;
  drv_is_connected := fun cnx d => (live cnx d, d);
  drv_cursor := sim_cursor;
  drv_commit := commit;
  drv_rollback := sim_transact;
  drv_close := sim_close;
  drv_execute := fun cur operation d =>
    if bool_decide (operation ∈ sim_rejects d) then (Raise refusal, d)
    else (Ok tt, d);
  drv_fetchone := fun cur d => (Ok "{'VERSION()': '8.0.36'}", d);
  drv_cursor_close := fun cur d => (Ok true, d)
|}.

(** A driver whose [execute] fails with an exception that is not a driver
    [Error], one whose [commit] fails, and one that reports every connection
    as not connected. *)
Definition pipe_driver : Driver sim :=
  sim_variant sim_live sim_transact (OSError "[Errno 32] Broken pipe").

Definition lost_commit_driver : Driver sim :=
  sim_variant sim_live
    (fun _ d => (Raise (Error "Lost connection to MySQL server during query"), d))
    (Error "You have an error in your SQL syntax").

Definition dead_driver : Driver sim :=
  sim_variant (fun _ _ => false) sim_transact
    (Error "You have an error in your SQL syntax").

Definition sample_database : gmap string json :=
  {[ "host" := JStr "db.local"; "user" := JStr "bot";
     "password" := JStr "secret"; "database" := JStr "media" ]}.

(** A decoder that knows the three configuration texts of the examples. *)
Definition sample_json_load (text : string) : result json :=
  if bool_decide (text = "{}") then Ok (JDict ∅)
  else if bool_decide (text = "{database: {}}")
  then Ok (JDict {[ "database" := JDict ∅ ]})
  else if bool_decide (text = "{database: {host, user, password, database}}")
  then Ok (JDict {[ "database" := JDict sample_database ]})
  else Raise (ValueError "Expecting value").

Definition sample_schema : string :=
  "CREATE TABLE a(id INT);  ;CREATE TABLE b(id INT);".

Definition sample_files : gmap string fnode :=
  {[ "my.json" := Readable "{database: {host, user, password, database}}";
     "empty.json" := Readable "{}";
     "nohost.json" := Readable "{database: {}}";
     "database_schema.sql" := Readable sample_schema ]}.

Definition sample_server (rejects : list string) : sim :=
  {| sim_up := true; sim_open := []; sim_next := 1; sim_rejects := rejects |}.

Definition sample_world (rejects : list string) : world sim :=
  {| files := sample_files; server := sample_server rejects; trace := [] |}.

(** A manager as [DatabaseConnection(config_file)] builds it. *)
Definition sample_self (config_file : string) (section : gmap string json)
    : DatabaseConnection :=
  {| db_config := {| config_file := config_file; config := JDict section |};
     connection := None |}.

Definition sample_state (rejects : list string) : DatabaseConnection * world sim :=
  (sample_self "my.json" sample_database, sample_world rejects).

(** The same manager and world once [get_cursor] has connected (connection
    1) and taken its cursor (cursor 2), followed by what a block left in the
    trace. *)
Definition sample_args : connect_args :=
  {| host := JStr "db.local"; port := JInt 3306; user := JStr "bot";
     password := JStr "secret"; database := JStr "media";
     charset := JStr "utf8mb4" |}.

Definition sample_acquired_world (rejects : list string) (block_events : list event)
    : world sim :=
  {| files := sample_files;
     server := {| sim_up := true; sim_open := [1]; sim_next := 3;
                  sim_rejects := rejects |};
     trace := [Call_connect sample_args; Call_is_connected 1;
               Printed (Msg_connected (JStr "media")); Call_cursor 1 true]
              ++ block_events |}.

Definition sample_acquired (rejects : list string)
    : DatabaseConnection * world sim :=
  ({| db_config := db_config (sample_self "my.json" sample_database);
      connection := Some 1 |},
   sample_acquired_world rejects []).

(** The same manager and world after [connect] alone. *)
Definition sample_connected : DatabaseConnection * world sim :=
  ({| db_config := db_config (sample_self "my.json" sample_database);
      connection := Some 1 |},
   {| files := sample_files;
      server := {| sim_up := true; sim_open := [1]; sim_next := 2;
                   sim_rejects := [] |};
      trace := [Call_connect sample_args; Call_is_connected 1;
                Printed (Msg_connected (JStr "media"))] |}).

(** The manager with connection [cnx] stored, in a world of the simulated
    server with the given open connections, next identity, rejected
    statements and trace. *)
Definition sample_at (cnx : MySQLConnection) (open : list MySQLConnection)
    (next : nat) (rejects : list string) (events : list event)
    : DatabaseConnection * world sim :=
  ({| db_config := db_config (sample_self "my.json" sample_database);
      connection := Some cnx |},
   {| files := sample_files;
      server := {| sim_up := true; sim_open := open; sim_next := next;
                   sim_rejects := rejects |};
      trace := events |}).

(** A driver that reports every connection as connected. *)
Definition trusting_driver : Driver sim :=
  sim_variant (fun _ _ => true) sim_transact
    (Error "You have an error in your SQL syntax").

(** A world whose server refuses connections. *)
Definition offline_state : DatabaseConnection * world sim :=
  (sample_self "my.json" sample_database,
   {| files := sample_files;
      server := {| sim_up := false; sim_open := []; sim_next := 1;
                   sim_rejects := [] |};
      trace := [] |}).

Section Code.

Context {dstate : Type}.

(** The driver and the JSON decoder [json.load] (on the text read). *)
Variable driver : Driver dstate.
Variable json_load : string -> result json.

Abbreviation world := (world dstate).
Abbreviation state := (DatabaseConnection * world)%type.

(** *** Primitive effects *)

Definition log (ev : event) : M world unit :=
  modify (fun w => {| files := files w; server := server w; trace := trace w ++ [ev] |}).

(** A call into the driver: recorded, then run on the driver's state. *)
Definition call {A} (ev : event) (op : dstate -> result A * dstate) : M world A :=
  log ev ;;
  fun w =>
    match op (server w) with
    | (r, d) => (r, {| files := files w; server := d; trace := trace w |})
    end.

Definition is_connected (cnx : MySQLConnection) : M world bool :=
  call (Call_is_connected cnx)
    (fun d => let (b, d') := drv_is_connected driver cnx d in (Ok b, d')).

Definition print (msg : message) : M world unit := log (Printed msg).

(** [os.path.exists(path)]. *)
Definition path_exists (path : string) : M world bool :=
  gets (fun w => bool_decide (is_Some (files w !! path))).

(** [with open(path, 'r') as f: f.read()]. *)
Definition read_file (path : string) : M world string :=
  fun w =>
    match files w !! path with
    | None => (Raise (FileNotFoundError path), w)
    | Some (Unreadable e) => (Raise e, w)
    | Some (Readable text) => (Ok text, w)
    end.

(** [with open(path, 'r') as f: json.load(f)]. *)
Definition read_json (path : string) : M world json :=
  text <- read_file path ;;
  eval (json_load text).

(** *** DatabaseConfig *)

Definition load_config (config_file : string) : M world json :=
  found <- path_exists config_file ;;
  (if negb found
   then raise (FileNotFoundError
                 ("Configuration file '" ++ config_file ++
                  "' not found. Please create it from my.json.example")%string)
   else ret tt) ;;
  config <- read_json config_file ;;
  has <- eval (py_contains "database" config) ;;
  (if negb has
   then raise (ValueError "Database configuration not found in my.json")
   else ret tt) ;;
  eval (py_getitem config "database").

Definition DatabaseConfig_init (config_file : string) : M world DatabaseConfig :=
  config <- load_config config_file ;;
  ret {| config_file := config_file; config := config |}.

Definition get_telegram_config (self : DatabaseConfig) : M world json :=
  config <- read_json (config_file self) ;;
  eval (py_get config "telegram" (JDict ∅)).

(** *** DatabaseConnection *)

Definition DatabaseConnection_init (config_file : string) : M world DatabaseConnection :=
  cfg <- DatabaseConfig_init config_file ;;
  ret {| db_config := cfg; connection := None |}.

(** A computation on the world, run by a method of the manager. *)
Definition io {A} (m : M world A) : M state A := up m.

Definition self_connection : M state (option MySQLConnection) :=
  gets (fun s => connection (fst s)).

Definition set_connection (cnx : MySQLConnection) : M state unit :=
  modify (fun s => ({| db_config := db_config (fst s); connection := Some cnx |}, snd s)).

Definition self_config : M state json :=
  gets (fun s => config (db_config (fst s))).

(** The keyword arguments of the call at lines 54-61, evaluated left to
    right. *)
Definition connect_arguments (cfg : json) : result connect_args :=
  match py_getitem cfg "host" with Raise e => Raise e | Ok host =>
  match py_get cfg "port" (JInt 3306) with Raise e => Raise e | Ok port =>
  match py_getitem cfg "user" with Raise e => Raise e | Ok user =>
  match py_getitem cfg "password" with Raise e => Raise e | Ok password =>
  match py_getitem cfg "database" with Raise e => Raise e | Ok database =>
  match py_get cfg "charset" (JStr "utf8mb4") with Raise e => Raise e | Ok charset =>
  Ok {| host := host; port := port; user := user; password := password;
        database := database; charset := charset |}
  end end end end end end.

Definition connect : M state (option MySQLConnection) :=
  try_except
    (cfg <- self_config ;;
     args <- eval (connect_arguments cfg) ;;
     cnx <- io (call (Call_connect args) (drv_connect driver args)) ;;
     set_connection cnx ;;
     live <- io (is_connected cnx) ;;
     if live : bool then
       db <- eval (py_getitem cfg "database") ;;
       io (print (Msg_connected db)) ;;
       self_connection
     else ret None)
    isinstance_Error
    (fun e => io (print (Msg_connect_error e)) ;; raise e).

Definition disconnect : M state unit :=
  cnx <- self_connection ;;
  match cnx with
  | None => ret tt
  | Some cnx =>
      live <- io (is_connected cnx) ;;
      if live : bool then
        io (call (Call_close cnx) (drv_close driver cnx)) ;;
        io (print Msg_closed)
      else ret tt
  end.

(** A method call on [self.connection]; on [None] the attribute lookup
    raises. *)
Definition on_connection {A} (method : string)
    (f : MySQLConnection -> M world A) : M state A :=
  cnx <- self_connection ;;
  match cnx with
  | Some cnx => io (f cnx)
  | None => raise (AttributeError ("'NoneType' object has no attribute '" ++ method ++ "'")%string)
  end.

(** Lines 82-85: connect when there is no live connection, then take a
    cursor from the connection. *)
Definition acquire_cursor (dictionary : bool) : M state MySQLCursor :=
  cnx <- self_connection ;;
  live <- match cnx with
          | None => ret false
          | Some cnx => io (is_connected cnx)
          end ;;
  (if negb live then connect ;; ret tt else ret tt) ;;
  on_connection "cursor"
    (fun cnx => call (Call_cursor cnx dictionary) (drv_cursor driver cnx dictionary)).

(** The handler of [except Error as e] at lines 89-93. *)
Definition rollback_and_reraise {L A} (e : exn) : M (L * state) A :=
  cnx <- up self_connection ;;
  match cnx with
  | Some cnx => up (io (call (Call_rollback cnx) (drv_rollback driver cnx)))
  | None => ret tt
  end ;;
  up (io (print (Msg_database_error e))) ;;
  raise e.

(** The [finally] clause at lines 95-97. *)
Definition close_cursor : M (option MySQLCursor * state) unit :=
  cursor <- get_local ;;
  match cursor with
  | Some cur => up (io (call (Call_cursor_close cur) (drv_cursor_close driver cur))) ;; ret tt
  | None => ret tt
  end.

(** [with self.get_cursor(dictionary) as cursor: block cursor].  The
    generator is run under the protocol of [contextlib.contextmanager]: the
    block runs where the generator yields, an exception of the block is
    raised at the [yield], and whatever the generator then raises leaves the
    [with] statement.  The block acts on the cursor it is given, that is on
    the world. *)
Definition get_cursor {A} (dictionary : bool) (block : MySQLCursor -> M world A)
    : M state A :=
  with_local (None : option MySQLCursor)
    (try_finally
       (try_except
          (cur <- up (acquire_cursor dictionary) ;;
           set_local (Some cur) ;;
           a <- up (io (block cur)) ;;
           up (on_connection "commit"
                 (fun cnx => call (Call_commit cnx) (drv_commit driver cnx))) ;;
           ret a)
          isinstance_Error
          rollback_and_reraise)
       close_cursor).

Definition execute (cur : MySQLCursor) (operation : string) : M world unit :=
  call (Call_execute cur operation) (drv_execute driver cur operation).

Definition fetchone (cur : MySQLCursor) : M world row :=
  call (Call_fetchone cur) (drv_fetchone driver cur).

(** The loop of lines 109-111. *)
Definition execute_statements (statements : list string) (cursor : MySQLCursor)
    : M world unit :=
  for_each statements
    (fun statement => if truthy statement then execute cursor statement else ret tt).

Definition execute_schema (schema_file : string) : M state unit :=
  try_except
    (schema_sql <- io (read_file schema_file) ;;
     let statements := split_statements schema_sql in
     get_cursor true (execute_statements statements) ;;
     io (print (Msg_schema_executed schema_file)))
    isinstance_Error
    (fun e => io (print (Msg_schema_error e)) ;; raise e).

(** The block of lines 124-127; [return True] leaves the [with] statement
    normally, with the value to return. *)
Definition version_query (cursor : MySQLCursor) : M world bool :=
  execute cursor "SELECT VERSION()" ;;
  version <- fetchone cursor ;;
  print (Msg_version version) ;;
  ret true.

(** Lines 121-131, the [try] with its [except] clause. *)
Definition test_connection_guarded : M state bool :=
  try_except
    (connect ;;
     get_cursor true version_query)
    isinstance_Error
    (fun e => io (print (Msg_test_failed e)) ;; ret false).

Definition test_connection : M state bool :=
  try_finally test_connection_guarded disconnect.

(** *** Convenience functions *)

Definition get_db_connection (config_file : string) : M world DatabaseConnection :=
  DatabaseConnection_init config_file.

(** [with get_db_cursor(config_file, dictionary) as cursor: block cursor].
    The manager [db] is a local of the generator; the block runs where the
    inner [with] yields. *)
Definition get_db_cursor {A} (config_file : string) (dictionary : bool)
    (block : MySQLCursor -> M world A) : M world A :=
  db <- DatabaseConnection_init config_file ;;
  with_local db
    (try_finally
       (connect ;;
        get_cursor dictionary block)
       disconnect).

(** The keys that [connect] reads with [config[key]], in the order of the
    call, and whether a dict lacks one. *)
Definition required_keys : list string := ["host"; "user"; "password"; "database"].

Definition lacks (m : gmap string json) (key : string) : bool :=
  match m !! key with
  | None => true
  | Some _ => false
  end.

(** The world [w] after more events, with the driver in state [d]. *)
Definition extend (w : world) (d : dstate) (events : list event) : world :=
  {| files := files w; server := d; trace := trace w ++ events |}.

(** What the driver answers when statements are executed one after another
    on a cursor, up to the first one that raises: the statements it was given
    (the raising one included), the exception if there is one, and the state
    it is left in. *)
Fixpoint drive (cur : MySQLCursor) (statements : list string) (d : dstate)
    : list string * option exn * dstate :=
  match statements with
  | [] => ([], None, d)
  | statement :: rest =>
      match drv_execute driver cur statement d with
      | (Ok _, d') =>
          match drive cur rest d' with
          | (given, failure, d'') => (statement :: given, failure, d'')
          end
      | (Raise e, d') => ([statement], Some e, d')
      end
  end.

(** ** Properties *)

(** *** DatabaseConfig *)

(** C4: [load_config] raises [FileNotFoundError] when the configuration
    file does not exist; when the file holds a JSON object it raises
    [ValueError] if the object has no ['database'] key, and otherwise returns
    exactly the value stored under ['database'].  The world is unchanged. *)
Theorem load_config_outcomes (path : string) (w : world) :
  (files w !! path = None ->
   load_config path w =
     (Raise (FileNotFoundError
               ("Configuration file '" ++ path ++
                "' not found. Please create it from my.json.example")%string),
      w)) /\
  (forall text m,
     files w !! path = Some (Readable text) ->
     json_load text = Ok (JDict m) ->
     load_config path w =
       (match m !! "database" with
        | None => Raise (ValueError "Database configuration not found in my.json")
        | Some section => Ok section
        end, w)).
Proof.
  split.
  - intros Hnone.
    unfold load_config, bind, path_exists, gets. rewrite Hnone. reflexivity.
  - intros text m Hfile Hjson.
    unfold load_config, read_json, read_file, bind, path_exists, gets, eval.
    rewrite Hfile. cbn. rewrite Hfile, Hjson. cbn.
    destruct (m !! "database") as [section|] eqn:Hdb; simpl.
    + reflexivity.
    + reflexivity.
Qed.

(** C9: [get_telegram_config] decodes the file as it is when the call is
    made, whatever was loaded at construction, and returns the value under
    ['telegram'], or an empty dict when the object has no such key. *)
Theorem get_telegram_config_reads_file (self : DatabaseConfig) (w : world)
    (text : string) (m : gmap string json) :
  files w !! config_file self = Some (Readable text) ->
  json_load text = Ok (JDict m) ->
  get_telegram_config self w = (Ok (default (JDict ∅) (m !! "telegram")), w) /\
  (m !! "telegram" = None -> get_telegram_config self w = (Ok (JDict ∅), w)).
Proof.
  intros Hfile Hjson.
  assert (get_telegram_config self w = (Ok (default (JDict ∅) (m !! "telegram")), w)) as Hrun.
  { unfold get_telegram_config, read_json, read_file, bind, eval.
    rewrite Hfile. cbn. rewrite Hjson. reflexivity. }
  split; [exact Hrun|].
  intros Habsent. rewrite Hrun, Habsent. reflexivity.
Qed.

(** *** connect *)




(** *** get_cursor *)

Lemma bind_Ok_inv {St A B} (m : M St A) (k : A -> M St B) (s s2 : St) (b : B) :
  bind m k s = (Ok b, s2) ->
  exists a s1, m s = (Ok a, s1) /\ k a s1 = (Ok b, s2).
Proof.
  unfold bind. destruct (m s) as [[a|e] s1]; intros H.
  - eauto.
  - discriminate.
Qed.

Lemma on_connection_Ok_inv {A} (method : string) (f : MySQLConnection -> M world A)
    (s s' : state) (a : A) :
  on_connection method f s = (Ok a, s') ->
  exists cnx, connection (fst s') = Some cnx /\ fst s' = fst s.
Proof.
  destruct s as [self w].
  unfold on_connection, bind, self_connection, gets, io, up, raise. cbn.
  destruct (connection self) as [cnx|] eqn:Hc; [|discriminate]. cbn.
  destruct (f cnx w) as [r w']. intros H. inversion H; subst. cbn.
  exists cnx. split; [assumption|reflexivity].
Qed.

(** A cursor is only ever obtained from a stored connection. *)
Lemma acquire_cursor_connection (dictionary : bool) (s s1 : state)
    (cur : MySQLCursor) :
  acquire_cursor dictionary s = (Ok cur, s1) ->
  exists cnx, connection (fst s1) = Some cnx.
Proof.
  unfold acquire_cursor. intros H.
  apply bind_Ok_inv in H as (? & ? & _ & H).
  apply bind_Ok_inv in H as (? & ? & _ & H).
  apply bind_Ok_inv in H as (? & ? & _ & H).
  apply on_connection_Ok_inv in H as (cnx & Hc & _). eauto.
Qed.

(** Unfold the monad and the effects, leaving calls of the driver, of the
    block and of [acquire_cursor] and [connect] in place. *)
Ltac run :=
  cbv beta iota delta
    [get_cursor with_local try_finally try_except bind up io set_local
     get_local modify gets eval on_connection self_connection close_cursor
     rollback_and_reraise call log print raise ret execute fetchone
     is_connected];
  cbn [fst snd files server trace connection db_config].

(** What the generator does once the block has returned: [commit], and on a
    driver [Error] of [commit] the handler; then the cursor's [close]. *)
Lemma get_cursor_block_returns {A} (dictionary : bool)
    (block : MySQLCursor -> M world A) (s s1 : state) (cur : MySQLCursor)
    (a : A) (w2 : world) :
  acquire_cursor dictionary s = (Ok cur, s1) ->
  block cur (snd s1) = (Ok a, w2) ->
  exists cnx r w3 mid,
    connection (fst s1) = Some cnx /\
    get_cursor dictionary block s = (r, (fst s1, w3)) /\
    trace w3 = trace w2 ++ Call_commit cnx :: mid ++ [Call_cursor_close cur] /\
    (mid = [] \/ mid = [Call_rollback cnx] \/
     exists e, mid = [Call_rollback cnx; Printed (Msg_database_error e)]) /\
    (forall d3 b d4,
       drv_commit driver cnx (server w2) = (Ok tt, d3) ->
       drv_cursor_close driver cur d3 = (Ok b, d4) ->
       r = Ok a /\ mid = []) /\
    (forall e d3,
       drv_commit driver cnx (server w2) = (Raise e, d3) ->
       exists e', r = Raise e') /\
    (forall a', r = Ok a' -> a' = a).
Proof.
  intros Hacq Hblock.
  destruct (acquire_cursor_connection _ _ _ _ Hacq) as [cnx Hcnx].
  destruct s1 as [self1 w1]. cbn [fst snd] in *.
  exists cnx. run. rewrite Hacq. run. rewrite Hblock. run.
  rewrite Hcnx. run.
  destruct (drv_commit driver cnx (server w2)) as [[[]|e] d3]; run.
  - destruct (drv_cursor_close driver cur d3) as [[b|e'] d4] eqn:Hclose; run;
      do 2 eexists; exists []; cbn; rewrite <- !app_assoc;
      (repeat apply conj; try assumption; try reflexivity; auto; try congruence);
      try (intros ? ? ? [= <-] Hc; rewrite Hclose in Hc; inversion Hc; auto);
      intros ? ? [=].
  - destruct (isinstance_Error e); run.
    + rewrite Hcnx. run.
      destruct (drv_rollback driver cnx d3) as [[[]|e1] d4]; run.
      * destruct (drv_cursor_close driver cur d4) as [[b|e'] d5]; run;
          do 2 eexists; exists [Call_rollback cnx; Printed (Msg_database_error e)];
          cbn; rewrite <- !app_assoc;
          (repeat apply conj; try assumption; try reflexivity; eauto; try congruence);
          intros ? ? ? [=].
      * destruct (drv_cursor_close driver cur d4) as [[b|e'] d5]; run;
          do 2 eexists; exists [Call_rollback cnx];
          cbn; rewrite <- !app_assoc;
          (repeat apply conj; try assumption; try reflexivity; eauto; try congruence);
          intros ? ? ? [=].
    + destruct (drv_cursor_close driver cur d3) as [[b|e'] d4]; run;
        do 2 eexists; exists []; cbn; rewrite <- !app_assoc;
        (repeat apply conj; try assumption; try reflexivity; eauto; try congruence);
        intros ? ? ? [=].
Qed.

(** What the generator does when the block raises: for a driver [Error] the
    handler ([rollback], report, re-raise), for any other exception nothing;
    then the cursor's [close]. *)
Lemma get_cursor_block_raises {A} (dictionary : bool)
    (block : MySQLCursor -> M world A) (s s1 : state) (cur : MySQLCursor)
    (e : exn) (w2 : world) :
  acquire_cursor dictionary s = (Ok cur, s1) ->
  block cur (snd s1) = (Raise e, w2) ->
  exists cnx r w3 mid e',
    connection (fst s1) = Some cnx /\
    get_cursor dictionary block s = (r, (fst s1, w3)) /\
    r = Raise e' /\
    trace w3 = trace w2 ++ mid ++ [Call_cursor_close cur] /\
    (if isinstance_Error e
     then mid = [Call_rollback cnx] \/
          mid = [Call_rollback cnx; Printed (Msg_database_error e)]
     else mid = []) /\
    (forall b d4,
       isinstance_Error e = false ->
       drv_cursor_close driver cur (server w2) = (Ok b, d4) -> e' = e) /\
    (forall d3 b d4,
       isinstance_Error e = true ->
       drv_rollback driver cnx (server w2) = (Ok tt, d3) ->
       drv_cursor_close driver cur d3 = (Ok b, d4) ->
       e' = e /\ mid = [Call_rollback cnx; Printed (Msg_database_error e)]).
Proof.
  intros Hacq Hblock.
  destruct (acquire_cursor_connection _ _ _ _ Hacq) as [cnx Hcnx].
  destruct s1 as [self1 w1]. cbn [fst snd] in *.
  exists cnx. run. rewrite Hacq. run. rewrite Hblock. run.
  destruct (isinstance_Error e) eqn:Herr; run.
  - rewrite Hcnx. run.
    destruct (drv_rollback driver cnx (server w2)) as [[[]|e1] d3]; run.
    + destruct (drv_cursor_close driver cur d3) as [[b|e'] d4] eqn:Hclose; run;
        do 2 eexists; exists [Call_rollback cnx; Printed (Msg_database_error e)];
        eexists; cbn; rewrite <- !app_assoc;
        (repeat apply conj; try assumption; try reflexivity; auto);
        try (intros ? ? [=]);
        intros ? ? ? _ [= <-] Hc; rewrite Hclose in Hc; inversion Hc; auto.
    + destruct (drv_cursor_close driver cur d3) as [[b|e'] d4]; run;
        do 2 eexists; exists [Call_rollback cnx];
        eexists; cbn; rewrite <- !app_assoc;
        (repeat apply conj; try assumption; try reflexivity; auto);
        try (intros ? ? [=]);
        intros ? ? ? _ [=].
  - destruct (drv_cursor_close driver cur (server w2)) as [[b|e'] d3] eqn:Hclose; run;
      do 2 eexists; exists []; eexists; cbn;
      (repeat apply conj; try assumption; try reflexivity; auto);
      try (intros ? ? ? [=]);
      intros ? ? _ [=].
Qed.




(** *** execute_schema *)

Lemma lstrip_all_whitespace (s : string) :
  all_whitespace s = true -> lstrip s = EmptyString.
Proof.
  induction s as [|ch rest IH]; [reflexivity|].
  cbn [all_whitespace lstrip]. intros [Hch Hrest]%andb_prop.
  rewrite Hch. exact (IH Hrest).
Qed.

Lemma lstrip_some_ink (s : string) :
  all_whitespace s = false ->
  exists ch rest, lstrip s = String ch rest /\ py_isspace ch = false.
Proof.
  induction s as [|ch rest IH]; [discriminate|].
  cbn [all_whitespace lstrip].
  destruct (py_isspace ch) eqn:Hch; cbn [andb]; [exact IH|].
  intros _. exists ch, rest. split; [reflexivity|exact Hch].
Qed.

Lemma rstrip_keeps_ink (ch : ascii) (rest : string) :
  py_isspace ch = false -> truthy (rstrip (String ch rest)) = true.
Proof.
  intros Hch. cbn [rstrip]. rewrite Hch. destruct (rstrip rest); reflexivity.
Qed.

(** Stripping leaves something exactly when the fragment is not blank. *)
Lemma strip_truthy (s : string) :
  truthy (strip s) = negb (all_whitespace s).
Proof.
  unfold strip. destruct (all_whitespace s) eqn:Hws.
  - rewrite (lstrip_all_whitespace s Hws). reflexivity.
  - destruct (lstrip_some_ink s Hws) as (ch & rest & -> & Hch).
    exact (rstrip_keeps_ink ch rest Hch).
Qed.

(** The list comprehension keeps the fragments that are not blank. *)
Lemma split_statements_discards_blank (schema_sql : string) :
  split_statements schema_sql =
    strip <$> filter (fun frag => all_whitespace frag = false) (split ";" schema_sql).
Proof.
  unfold split_statements. f_equal. apply list_filter_iff. intros frag.
  rewrite strip_truthy. destruct (all_whitespace frag); cbn; split; congruence.
Qed.

(** No statement of the list is empty, so the guard of line 110 never skips
    one. *)
Lemma split_statements_truthy (schema_sql : string) :
  Forall (fun stmt => truthy stmt = true) (split_statements schema_sql).
Proof.
  unfold split_statements. apply Forall_forall. intros stmt Hin.
  apply list_elem_of_fmap in Hin as (frag & -> & Hfrag).
  apply list_elem_of_filter in Hfrag as [Htruthy _]. exact Htruthy.
Qed.

Lemma split_cons (sep : ascii) (s : string) :
  exists frag frags, split sep s = frag :: frags.
Proof.
  destruct s as [|ch rest]; cbn [split]; [eauto|].
  destruct (decide (ch = sep)); [eauto|].
  destruct (split sep rest); eauto.
Qed.

(** Joining the fragments with the separator gives the text back. *)
Lemma split_join (sep : ascii) (s : string) :
  String.concat (String sep EmptyString) (split sep s) = s.
Proof.
  induction s as [|ch rest IH]; [reflexivity|].
  cbn [split].
  destruct (split_cons sep rest) as (frag & frags & Hsplit).
  rewrite Hsplit in *.
  destruct (decide (ch = sep)) as [->|Hne].
  - rewrite <- IH. reflexivity.
  - rewrite <- IH. destruct frags; reflexivity.
Qed.

(** Unfold [execute_schema] and [test_connection] down to their calls of
    [connect], [get_cursor] and [disconnect]. *)
Ltac run_method :=
  cbv beta iota delta
    [execute_schema test_connection test_connection_guarded try_finally
     try_except bind up io read_file modify gets eval call log print raise ret];
  cbn [fst snd files server trace connection db_config].

(** The loop gives every statement to the driver until one raises, and
    raises what the driver raised. *)
Lemma execute_statements_drive (statements : list string) (cur : MySQLCursor)
    (w : world) (given : list string) (failure : option exn) (d2 : dstate) :
  Forall (fun stmt => truthy stmt = true) statements ->
  drive cur statements (server w) = (given, failure, d2) ->
  execute_statements statements cur w =
    (match failure with None => Ok tt | Some e => Raise e end,
     extend w d2 (Call_execute cur <$> given)) /\
  match failure with
  | None => given = statements
  | Some _ =>
      exists before failing rest,
        given = before ++ [failing] /\ statements = given ++ rest
  end.
Proof.
  intros Hall. revert w given failure d2.
  induction Hall as [|stmt statements Hstmt Hall IH]; intros w given failure d2.
  - cbn [drive]. intros [= <- <- <-]. split; [|reflexivity].
    destruct w as [fs d tr]. unfold extend. cbn. rewrite app_nil_r. reflexivity.
  - cbn [drive]. unfold execute_statements. cbn [for_each]. rewrite Hstmt.
    fold (execute_statements statements cur). run.
    destruct (drv_execute driver cur stmt (server w)) as [[[]|e] d1]; run.
    + destruct (drive cur statements d1) as [[given' failure'] d2'] eqn:Hdrive.
      intros [= <- <- <-].
      destruct (IH {| files := files w; server := d1;
                      trace := trace w ++ [Call_execute cur stmt] |}
                  given' failure' d2' Hdrive) as [Hrun Hshape].
      rewrite Hrun. split.
      * unfold extend. cbn [files server trace fmap list_fmap].
        rewrite <- app_assoc. reflexivity.
      * destruct failure' as [e|].
        -- destruct Hshape as (before & failing & rest & -> & ->).
           exists (stmt :: before), failing, rest. split; reflexivity.
        -- rewrite Hshape. reflexivity.
    + intros [= <- <- <-]. split; [reflexivity|].
      exists [], stmt, statements. split; reflexivity.
Qed.

(** Close a goal on the trace of the final world from the trace [H] of the
    world [get_cursor] left. *)
Ltac finish_trace H :=
  cbn [log modify fst snd trace extend];
  rewrite ?H; rewrite <- ?app_assoc; cbn [app]; reflexivity.

(** C2 (amended): the text is cut at every [;], the fragments that are
    empty or made of whitespace only are dropped and the others stripped (two
    statements for the sample text), so that no statement is empty; once the
    cursor is obtained, the statements are given to [execute] in that order
    on that one cursor.  When the driver accepts them all, [commit] is called
    once after the last one, and [execute_schema] returns when [commit] and
    the cursor's [close] return.  At the first statement the driver refuses,
    no later statement is executed, [commit] is never called and
    [execute_schema] raises; when the refusal is a driver [Error], [rollback]
    is called once, and when it is any other exception the cursor is closed
    with no [rollback]. *)
Theorem execute_schema_runs_statements (schema_file schema_sql : string)
    (s s1 : state) (cur : MySQLCursor) (given : list string)
    (failure : option exn) (d2 : dstate) :
  files (snd s) !! schema_file = Some (Readable schema_sql) ->
  acquire_cursor true s = (Ok cur, s1) ->
  drive cur (split_statements schema_sql) (server (snd s1)) = (given, failure, d2) ->
  String.concat ";" (split ";" schema_sql) = schema_sql /\
  split_statements schema_sql =
    strip <$> filter (fun frag => all_whitespace frag = false) (split ";" schema_sql) /\
  Forall (fun stmt => stmt <> "") (split_statements schema_sql) /\
  split_statements "CREATE TABLE a(id INT);  ;CREATE TABLE b(id INT);" =
    ["CREATE TABLE a(id INT)"; "CREATE TABLE b(id INT)"] /\
  exists cnx r w3 tail,
    connection (fst s1) = Some cnx /\
    execute_schema schema_file s = (r, (fst s1, w3)) /\
    trace w3 = trace (snd s1) ++ (Call_execute cur <$> given) ++ tail /\
    count_event is_execute tail = 0 /\
    match failure with
    | None =>
        given = split_statements schema_sql /\
        exists tail',
          tail = Call_commit cnx :: tail' /\
          count_event is_commit tail' = 0 /\
          (forall d3 b d4,
             drv_commit driver cnx d2 = (Ok tt, d3) ->
             drv_cursor_close driver cur d3 = (Ok b, d4) ->
             r = Ok tt /\
             tail' = [Call_cursor_close cur;
                      Printed (Msg_schema_executed schema_file)])
    | Some e =>
        (exists before failing rest,
           given = before ++ [failing] /\
           split_statements schema_sql = given ++ rest) /\
        count_event is_commit tail = 0 /\
        (exists e', r = Raise e') /\
        if isinstance_Error e
        then
          exists tail',
            tail = Call_rollback cnx :: tail' /\
            count_event is_rollback tail' = 0 /\
            (forall d3 b d4,
               drv_rollback driver cnx d2 = (Ok tt, d3) ->
               drv_cursor_close driver cur d3 = (Ok b, d4) ->
               r = Raise e /\
               tail' = [Printed (Msg_database_error e); Call_cursor_close cur;
                        Printed (Msg_schema_error e)])
        else
          exists tail',
            tail = Call_cursor_close cur :: tail' /\
            count_event is_rollback tail = 0 /\
            (forall b d4,
               drv_cursor_close driver cur d2 = (Ok b, d4) ->
               r = Raise e /\ tail' = [])
    end.
Proof.
  intros Hfile Hacq Hdrive.
  split; [apply (split_join ";")|].
  split; [apply split_statements_discards_blank|].
  split.
  { eapply Forall_impl; [apply split_statements_truthy|].
    intros stmt Ht ->. discriminate. }
  split; [reflexivity|].
  destruct (execute_statements_drive _ _ _ _ _ _
              (split_statements_truthy schema_sql) Hdrive) as [Hloop Hshape].
  destruct s as [self w]. cbn [fst snd] in *.
  set (w2 := extend (snd s1) d2 (Call_execute cur <$> given)) in *.
  assert (trace w2 = trace (snd s1) ++ (Call_execute cur <$> given)) as Hw2
    by reflexivity.
  assert (server w2 = d2) as Hd2 by reflexivity.
  clearbody w2.
  destruct failure as [e|].
  - destruct (get_cursor_block_raises true
                (execute_statements (split_statements schema_sql))
                (self, w) s1 cur e w2 Hacq Hloop)
      as (cnx & r & w3 & mid & e' & Hcnx & Hrun & -> & Htrace & Hmid & Hother & Hsame).
    rewrite Hd2 in Hother, Hsame. rewrite Hw2 in Htrace.
    exists cnx. run_method. rewrite Hfile. run_method. rewrite Hrun.
    destruct (isinstance_Error e) eqn:He.
    + destruct Hmid as [-> | ->];
        destruct (isinstance_Error e') eqn:He'; run_method;
        do 3 eexists; (split; [exact Hcnx|]); (split; [reflexivity|]);
        (split; [finish_trace Htrace|]);
        (split; [reflexivity|]); (split; [exact Hshape|]);
        (split; [reflexivity|]); (split; [eauto|]);
        eexists; (split; [reflexivity|]); (split; [reflexivity|]);
        intros d3 b d4 Hr Hc;
        destruct (Hsame d3 b d4 eq_refl Hr Hc) as [-> Hm];
        try discriminate Hm; try congruence;
        split; reflexivity.
    + subst mid.
      destruct (isinstance_Error e') eqn:He'; run_method;
        do 3 eexists; (split; [exact Hcnx|]); (split; [reflexivity|]);
        (split; [finish_trace Htrace|]);
        (split; [reflexivity|]); (split; [exact Hshape|]);
        (split; [reflexivity|]); (split; [eauto|]);
        eexists; (split; [reflexivity|]); (split; [reflexivity|]);
        intros b d4 Hc; pose proof (Hother b d4 eq_refl Hc) as ->;
        try congruence; split; reflexivity.
  - destruct (get_cursor_block_returns true
                (execute_statements (split_statements schema_sql))
                (self, w) s1 cur tt w2 Hacq Hloop)
      as (cnx & r & w3 & mid & Hcnx & Hrun & Htrace & Hmid & Hgood & _ & _).
    rewrite Hd2 in Hgood. rewrite Hw2 in Htrace.
    exists cnx. run_method. rewrite Hfile. run_method. rewrite Hrun.
    destruct Hmid as [-> | [-> | [e0 ->]]];
      (destruct r as [[]|e']; [|destruct (isinstance_Error e') eqn:He']);
      run_method;
      do 3 eexists; (split; [exact Hcnx|]); (split; [reflexivity|]);
      (split; [finish_trace Htrace|]);
      (split; [reflexivity|]); (split; [exact Hshape|]);
      eexists; (split; [reflexivity|]); (split; [reflexivity|]);
      intros d3 b d4 Hr Hc;
      destruct (Hgood d3 b d4 Hr Hc) as [Hval Hm];
      try discriminate Hval; try discriminate Hm;
      split; reflexivity.
Qed.

(** C7 (amended): a failure to read the schema file leaves [execute_schema]
    as the exception of [open] (a [FileNotFoundError] for a missing file),
    not as a driver [Error], and nothing is done to the database; a driver
    [Error] of a statement makes [execute_schema] fail after [rollback] with
    no [commit], with that same error when [rollback] and the cursor's
    [close] return. *)
Theorem execute_schema_failures (schema_file : string) (s : state) :
  (files (snd s) !! schema_file = None ->
   execute_schema schema_file s = (Raise (FileNotFoundError schema_file), s)) /\
  (forall e,
     files (snd s) !! schema_file = Some (Unreadable e) ->
     isinstance_Error e = false ->
     execute_schema schema_file s = (Raise e, s)) /\
  (forall schema_sql s1 cur e w2,
     files (snd s) !! schema_file = Some (Readable schema_sql) ->
     acquire_cursor true s = (Ok cur, s1) ->
     execute_statements (split_statements schema_sql) cur (snd s1) = (Raise e, w2) ->
     isinstance_Error e = true ->
     exists cnx e' w3 tail,
       connection (fst s1) = Some cnx /\
       execute_schema schema_file s = (Raise e', (fst s1, w3)) /\
       trace w3 = trace w2 ++ Call_rollback cnx :: tail /\
       count_event is_commit tail = 0 /\
       (forall d3 b d4,
          drv_rollback driver cnx (server w2) = (Ok tt, d3) ->
          drv_cursor_close driver cur d3 = (Ok b, d4) ->
          e' = e /\
          tail = [Printed (Msg_database_error e); Call_cursor_close cur;
                  Printed (Msg_schema_error e)])).
Proof.
  destruct s as [self w]. cbn [fst snd].
  split; [|split].
  - intros Hfile. run_method. rewrite Hfile. reflexivity.
  - intros e Hfile Herr. run_method. rewrite Hfile. run_method.
    rewrite Herr. reflexivity.
  - intros schema_sql s1 cur e w2 Hfile Hacq Hloop Herr.
    destruct (get_cursor_block_raises true
                (execute_statements (split_statements schema_sql))
                (self, w) s1 cur e w2 Hacq Hloop)
      as (cnx & r & w3 & mid & e' & Hcnx & Hrun & -> & Htrace & Hmid & _ & Hsame).
    rewrite Herr in Hmid.
    exists cnx, e'. run_method. rewrite Hfile. run_method. rewrite Hrun.
    destruct (isinstance_Error e') eqn:He'; run_method;
      [ exists (log (Printed (Msg_schema_error e')) w3).2,
          (List.tail mid ++ [Call_cursor_close cur; Printed (Msg_schema_error e')])
      | exists w3, (List.tail mid ++ [Call_cursor_close cur]) ];
      (split; [exact Hcnx|]); (split; [reflexivity|]);
      cbn [log modify snd trace]; rewrite Htrace;
      (split; [destruct Hmid as [-> | ->]; rewrite <- ?app_assoc; reflexivity|]);
      (split; [destruct Hmid as [-> | ->]; reflexivity|]);
      intros d3 b d4 Hr Hc;
      destruct (Hsame d3 b d4 Herr Hr Hc) as [-> ->];
      (split; [reflexivity|]); [reflexivity|congruence].
Qed.

(** *** test_connection *)

(** When no cursor is obtained the [with] statement raises. *)
Lemma get_cursor_acquire_fails {A} (dictionary : bool)
    (block : MySQLCursor -> M world A) (s s1 : state) (e : exn) :
  acquire_cursor dictionary s = (Raise e, s1) ->
  exists e' s', get_cursor dictionary block s = (Raise e', s').
Proof.
  intros Hacq. destruct s1 as [self1 w1].
  run. rewrite Hacq. run.
  destruct (isinstance_Error e); run; [|eauto].
  destruct (connection self1) as [cnx|]; run; [|eauto].
  destruct (drv_rollback driver cnx (server w1)) as [[[]|e1] d2]; run; eauto.
Qed.

(** A value leaves the [with] statement only when the block returned it. *)
Lemma get_cursor_Ok_inv {A} (dictionary : bool)
    (block : MySQLCursor -> M world A) (s s' : state) (a : A) :
  get_cursor dictionary block s = (Ok a, s') ->
  exists cur s1 w2,
    acquire_cursor dictionary s = (Ok cur, s1) /\
    block cur (snd s1) = (Ok a, w2).
Proof.
  intros Hrun.
  destruct (acquire_cursor dictionary s) as [[cur|e] s1] eqn:Hacq.
  - destruct (block cur (snd s1)) as [[a'|e] w2] eqn:Hblock.
    + destruct (get_cursor_block_returns dictionary block s s1 cur a' w2 Hacq Hblock)
        as (cnx & r & w3 & mid & _ & Hrun' & _ & _ & _ & _ & Hval).
      rewrite Hrun in Hrun'. inversion Hrun'; subst.
      rewrite (Hval a eq_refl). eauto.
    + destruct (get_cursor_block_raises dictionary block s s1 cur e w2 Hacq Hblock)
        as (cnx & r & w3 & mid & e' & _ & Hrun' & -> & _).
      rewrite Hrun in Hrun'. discriminate.
  - destruct (get_cursor_acquire_fails dictionary block s s1 e Hacq)
      as (e' & s2 & Hrun').
    rewrite Hrun in Hrun'. discriminate.
Qed.

Lemma version_query_Ok (cur : MySQLCursor) (w w' : world) (b : bool) :
  version_query cur w = (Ok b, w') -> b = true.
Proof.
  unfold version_query. run.
  destruct (drv_execute driver cur _ (server w)) as [[[]|e] d1]; run;
    [|discriminate].
  destruct (drv_fetchone driver cur d1) as [[version|e] d2]; run;
    [|discriminate].
  intros [= <- _]. reflexivity.
Qed.

(** What [disconnect] does, by the driver's answers: nothing without a
    stored connection; otherwise the probe, and on a live connection [close]
    and, when [close] returns, the report. *)
Lemma disconnect_exact (s : state) :
  disconnect s =
    match connection (fst s) with
    | None => (Ok tt, s)
    | Some cnx =>
        match drv_is_connected driver cnx (server (snd s)) with
        | (false, d1) =>
            (Ok tt, (fst s, extend (snd s) d1 [Call_is_connected cnx]))
        | (true, d1) =>
            match drv_close driver cnx d1 with
            | (Ok _, d2) =>
                (Ok tt,
                 (fst s,
                  extend (snd s) d2
                    [Call_is_connected cnx; Call_close cnx; Printed Msg_closed]))
            | (Raise e, d2) =>
                (Raise e,
                 (fst s,
                  extend (snd s) d2 [Call_is_connected cnx; Call_close cnx]))
            end
        end
    end.
Proof.
  destruct s as [self w]. unfold disconnect, extend. run.
  destruct (connection self) as [cnx|]; run; [|reflexivity].
  destruct (drv_is_connected driver cnx (server w)) as [[|] d1]; run;
    [|reflexivity].
  destruct (drv_close driver cnx d1) as [[[]|e] d2]; run;
    rewrite <- ?app_assoc; reflexivity.
Qed.

(** C3 (amended): [test_connection] gives [True] when [connect] and the
    scoped version query return, gives [False] after reporting it when either
    raises a driver [Error], and lets any other exception through.  Then
    [disconnect] runs on every path: nothing is done without a stored
    connection; otherwise the connection is probed and, when the driver
    reports it connected, closed.  The outcome is the one above unless
    [close] raises, in which case its exception leaves [test_connection]. *)
Theorem test_connection_outcomes (s sb : state) (rb : result bool) :
  (connect ;; get_cursor true version_query) s = (rb, sb) ->
  exists r1 w1,
    match rb with
    | Ok _ => r1 = Ok true /\ w1 = snd sb
    | Raise e =>
        if isinstance_Error e
        then r1 = Ok false /\
             w1 = extend (snd sb) (server (snd sb)) [Printed (Msg_test_failed e)]
        else r1 = Raise e /\ w1 = snd sb
    end /\
    (forall e, r1 = Raise e -> isinstance_Error e = false) /\
    match connection (fst sb) with
    | None => test_connection s = (r1, (fst sb, w1))
    | Some cnx =>
        match drv_is_connected driver cnx (server w1) with
        | (false, d1) =>
            test_connection s =
              (r1, (fst sb, extend w1 d1 [Call_is_connected cnx]))
        | (true, d1) =>
            match drv_close driver cnx d1 with
            | (Ok _, d2) =>
                test_connection s =
                  (r1,
                   (fst sb,
                    extend w1 d2
                      [Call_is_connected cnx; Call_close cnx; Printed Msg_closed]))
            | (Raise e, d2) =>
                test_connection s =
                  (Raise e,
                   (fst sb,
                    extend w1 d2 [Call_is_connected cnx; Call_close cnx]))
            end
        end
    end.
Proof.
  intros Hbody.
  assert (exists r1 w1,
            test_connection_guarded s = (r1, (fst sb, w1)) /\
            match rb with
            | Ok _ => r1 = Ok true /\ w1 = snd sb
            | Raise e =>
                if isinstance_Error e
                then r1 = Ok false /\
                     w1 = extend (snd sb) (server (snd sb))
                            [Printed (Msg_test_failed e)]
                else r1 = Raise e /\ w1 = snd sb
            end /\
            (forall e, r1 = Raise e -> isinstance_Error e = false))
    as (r1 & w1 & Hguard & Hkind & Hsafe).
  { unfold test_connection_guarded, try_except. rewrite Hbody.
    destruct sb as [selfb wb]. cbn [fst snd].
    destruct rb as [b|e].
    - assert (b = true) as ->.
      { apply bind_Ok_inv in Hbody as (? & ? & _ & Hbody).
        apply get_cursor_Ok_inv in Hbody as (cur & s3 & w2 & _ & Hq).
        exact (version_query_Ok _ _ _ _ Hq). }
      exists (Ok true), wb. split; [reflexivity|]. split; [auto|].
      intros e [=].
    - destruct (isinstance_Error e) eqn:Herr.
      + run. exists (Ok false). eexists. split; [reflexivity|].
        split; [split; reflexivity|]. intros e0 [=].
      + exists (Raise e), wb. split; [reflexivity|]. split; [auto|].
        intros e0 [= <-]. exact Herr. }
  exists r1, w1. split; [exact Hkind|]. split; [exact Hsafe|].
  unfold test_connection, try_finally. rewrite Hguard, disconnect_exact.
  cbn [fst snd].
  destruct (connection (fst sb)) as [cnx|]; [|reflexivity].
  destruct (drv_is_connected driver cnx (server w1)) as [[|] d1]; [|reflexivity].
  destruct (drv_close driver cnx d1) as [[[]|e] d2]; reflexivity.
Qed.

(** ** Further properties *)

(** *** Configuration *)

(** What [load_config] can do, by cases on the file and on the document. *)
Lemma load_config_inv (path : string) (w w' : world)
    (r : result json) :
  load_config path w = (r, w') ->
  w' = w /\
  (forall v,
     r = Ok v ->
     exists text m,
       files w !! path = Some (Readable text) /\
       json_load text = Ok (JDict m) /\
       m !! "database" = Some v).
Proof.
  unfold load_config, read_json, read_file, bind, path_exists, gets, eval, raise, ret.
  destruct (files w !! path) as [[text|e]|] eqn:Hfile; cbn; rewrite ?Hfile; cbn.
  - destruct (json_load text) as [cfg|e] eqn:Hjson; cbn.
    + destruct cfg as [|b|n|repr|str|l|m]; cbn.
      1-4: intros [= <- <-]; (split; [reflexivity|]); intros v [=].
      * destruct (is_substring "database" str); cbn;
          intros [= <- <-]; (split; [reflexivity|]); intros v [=].
      * destruct (existsb (is_JStr "database") l); cbn;
          intros [= <- <-]; (split; [reflexivity|]); intros v [=].
      * destruct (m !! "database") as [v0|] eqn:Hdb; cbn;
          intros [= <- <-]; (split; [reflexivity|]); intros v [=].
        subst v0. eauto.
    + intros [= <- <-]. split; [reflexivity|]. intros v [=].
  - intros [= <- <-]. split; [reflexivity|]. intros v [=].
  - intros [= <- <-]. split; [reflexivity|]. intros v [=].
Qed.

(** X1: [load_config] leaves the world as it is, and it returns a value only
    when the file exists, is readable and decodes to a JSON object with a
    ['database'] key, the value being the one under that key: a document that
    is a list, a string, a number, a boolean or null always raises. *)
Theorem load_config_returns_only_section (path : string) (w w' : world)
    (r : result json) :
  load_config path w = (r, w') ->
  w' = w /\
  (forall v,
     r = Ok v ->
     exists text m,
       files w !! path = Some (Readable text) /\
       json_load text = Ok (JDict m) /\
       m !! "database" = Some v).
Proof.
  exact (load_config_inv path w w' r).
Qed.

(** X2: [get_db_connection] (that is [DatabaseConnection(config_file)])
    leaves the world as it is; when it returns, the manager holds no
    connection, remembers the path and caches what [load_config] returns for
    it; when it raises, it raises what [load_config] raises. *)
Theorem get_db_connection_fresh (path : string) (w w' : world)
    (r : result DatabaseConnection) :
  get_db_connection path w = (r, w') ->
  w' = w /\
  match r with
  | Ok db =>
      connection db = None /\
      config_file (db_config db) = path /\
      load_config path w = (Ok (config (db_config db)), w)
  | Raise e => load_config path w = (Raise e, w)
  end.
Proof.
  unfold get_db_connection, DatabaseConnection_init, DatabaseConfig_init.
  unfold bind at 1 2. unfold ret.
  destruct (load_config path w) as [[v|e] w0] eqn:Hload;
    destruct (load_config_inv _ _ _ _ Hload) as [-> _];
    intros [= <- <-]; (split; [reflexivity|]); cbn; auto.
Qed.

(** X3: [get_telegram_config] leaves the world as it is; it does not test
    that the file exists, so a missing file raises the [FileNotFoundError] of
    [open]; a document that is not an object raises [AttributeError]; and it
    returns only for an object, the value under ['telegram'] or an empty
    dict. *)
Theorem get_telegram_config_outcomes (self : DatabaseConfig) (w w' : world)
    (r : result json) :
  get_telegram_config self w = (r, w') ->
  w' = w /\
  (files w !! config_file self = None ->
   r = Raise (FileNotFoundError (config_file self))) /\
  (forall text cfg,
     files w !! config_file self = Some (Readable text) ->
     json_load text = Ok cfg ->
     (forall m, cfg <> JDict m) ->
     exists msg, r = Raise (AttributeError msg)) /\
  (forall v,
     r = Ok v ->
     exists text m,
       files w !! config_file self = Some (Readable text) /\
       json_load text = Ok (JDict m) /\
       v = default (JDict ∅) (m !! "telegram")).
Proof.
  unfold get_telegram_config, read_json, read_file, bind, eval.
  destruct (files w !! config_file self) as [[text|e]|] eqn:Hfile; cbn.
  - destruct (json_load text) as [cfg|e] eqn:Hjson; cbn.
    + destruct cfg as [|b|n|repr|str|l|m]; cbn; intros [= <- <-];
        (split; [reflexivity|]); (split; [intros [=]|]);
        (split; [intros ? ? [= <-] Hj Hnot; rewrite Hjson in Hj;
                 injection Hj as <-; try (eexists; reflexivity);
                 destruct (Hnot m eq_refl)|]);
        intros v [=]; subst; eauto.
    + intros [= <- <-]. split; [reflexivity|]. split; [intros [=]|].
      split; [intros ? ? [= <-] Hj; rewrite Hjson in Hj; discriminate|].
      intros v [=].
  - intros [= <- <-]. split; [reflexivity|]. split; [intros [=]|].
    split; [intros ? ? [=]|]. intros v [=].
  - intros [= <- <-]. split; [reflexivity|]. split; [reflexivity|].
    split; [intros ? ? [=]|]. intros v [=].
Qed.

(** *** connect and disconnect *)

Ltac run_connect :=
  cbv beta iota delta
    [connect disconnect acquire_cursor on_connection try_except bind
     self_config gets eval io up call log modify set_connection is_connected
     print self_connection raise ret negb];
  cbn [fst snd files server trace connection db_config config].

Lemma connect_arguments_database (cfg : json) (args : connect_args) :
  connect_arguments cfg = Ok args ->
  py_getitem cfg "database" = Ok (database args).
Proof.
  unfold connect_arguments.
  destruct (py_getitem cfg "host"); [|discriminate].
  destruct (py_get cfg "port" _); [|discriminate].
  destruct (py_getitem cfg "user"); [|discriminate].
  destruct (py_getitem cfg "password"); [|discriminate].
  destruct (py_getitem cfg "database"); [|discriminate].
  destruct (py_get cfg "charset" _); [|discriminate].
  intros [= <-]. reflexivity.
Qed.

Lemma connect_arguments_not_Error (cfg : json) (e : exn) :
  connect_arguments cfg = Raise e -> isinstance_Error e = false.
Proof.
  unfold connect_arguments, py_getitem, py_get.
  destruct cfg as [|b|n|repr|str|l|m]; try (intros [= <-]; reflexivity).
  repeat (match goal with
          | |- context [m !! ?k] => destruct (m !! k)
          end; try (intros [= <-]; reflexivity)).
Qed.

(** Whatever makes [connect] raise, the manager object is as before. *)
Lemma connect_raises_unchanged (s s' : state) (e : exn) :
  connect s = (Raise e, s') -> fst s' = fst s.
Proof.
  destruct s as [self w]. run_connect.
  destruct (connect_arguments (config (db_config self))) as [args|e0] eqn:Hargs;
    run_connect.
  - rewrite (connect_arguments_database _ _ Hargs).
    destruct (drv_connect driver args (server w)) as [[cnx|e1] d1]; run_connect.
    + destruct (drv_is_connected driver cnx d1) as [[|] d2]; run_connect;
        discriminate.
    + destruct (isinstance_Error e1); run_connect; intros [= <- <-]; reflexivity.
  - rewrite (connect_arguments_not_Error _ _ Hargs). intros [= <- <-]. reflexivity.
Qed.

(** X4: with a configuration dict that lacks one of ['host'], ['user'],
    ['password'], ['database'], [connect] raises the [KeyError] of the first
    missing one in that order; the driver is not called, nothing is printed
    and the manager is unchanged. *)
Theorem connect_missing_key (s : state) (m : gmap string json) (key : string) :
  config (db_config (fst s)) = JDict m ->
  List.find (lacks m) required_keys = Some key ->
  connect s = (Raise (KeyError key), s).
Proof.
  intros Hcfg Hfind. destruct s as [self w]. cbn [fst snd] in *.
  run_connect. rewrite Hcfg.
  unfold required_keys, lacks in Hfind. cbn [List.find] in Hfind.
  unfold connect_arguments, py_getitem, py_get.
  destruct (m !! "host"); [|injection Hfind as <-; reflexivity].
  destruct (m !! "user"); [|injection Hfind as <-; reflexivity].
  destruct (m !! "password"); [|injection Hfind as <-; reflexivity].
  destruct (m !! "database"); [|injection Hfind as <-; reflexivity].
  discriminate.
Qed.

(** X5: whatever makes [connect] raise, the manager is as before.  When the
    arguments are there and the driver gives a handle, [connect] stores it
    (the configuration untouched) and probes it: if the driver reports it
    connected, success is reported and the handle returned; if not, nothing
    is reported and [None] is returned, the handle staying stored. *)
Theorem connect_stores_handle (s : state) :
  (forall e s', connect s = (Raise e, s') -> fst s' = fst s) /\
  (forall args cnx d1 live d2,
     connect_arguments (config (db_config (fst s))) = Ok args ->
     drv_connect driver args (server (snd s)) = (Ok cnx, d1) ->
     drv_is_connected driver cnx d1 = (live, d2) ->
     connect s =
       (Ok (if live : bool then Some cnx else None),
        ({| db_config := db_config (fst s); connection := Some cnx |},
         extend (snd s) d2
           ([Call_connect args; Call_is_connected cnx] ++
            if live : bool
            then [Printed (Msg_connected (database args))]
            else [])))).
Proof.
  split.
  - intros e s'. apply connect_raises_unchanged.
  - intros args cnx d1 live d2 Hargs Hconn Hlive.
    destruct s as [self w]. cbn [fst snd] in *. unfold extend. run_connect.
    rewrite Hargs. run_connect.
    rewrite (connect_arguments_database _ _ Hargs), Hconn. run_connect.
    rewrite Hlive. destruct live; run_connect;
      rewrite <- ?app_assoc; reflexivity.
Qed.

(** X6: [disconnect] never changes the manager, so the stored handle stays
    after the connection is closed; without a stored connection it does
    nothing at all; with a connection the driver reports as not connected it
    only probes and does not call [close]. *)
Theorem disconnect_keeps_handle (s s' : state) (r : result unit) :
  disconnect s = (r, s') ->
  fst s' = fst s /\
  (connection (fst s) = None -> r = Ok tt /\ s' = s) /\
  (forall cnx d1,
     connection (fst s) = Some cnx ->
     drv_is_connected driver cnx (server (snd s)) = (false, d1) ->
     r = Ok tt /\
     trace (snd s') = trace (snd s) ++ [Call_is_connected cnx] /\
     count_event is_close (trace (snd s')) = count_event is_close (trace (snd s))).
Proof.
  destruct s as [self w]. run_connect.
  destruct (connection self) as [cnx|] eqn:Hcnx; run_connect.
  - destruct (drv_is_connected driver cnx (server w)) as [[|] d1] eqn:Hlive;
      run_connect.
    + destruct (drv_close driver cnx d1) as [[[]|e] d2]; run_connect;
        intros [= <- <-]; (split; [reflexivity|]); (split; [intros [=]|]);
        intros ? ? [= <-] Hl; rewrite Hlive in Hl; discriminate.
    + intros [= <- <-]. split; [reflexivity|]. split; [intros [=]|].
      intros ? ? [= <-] _. cbn [snd trace]. split; [reflexivity|].
      split; [reflexivity|].
      unfold count_event. rewrite List.filter_app, length_app. cbn. lia.
  - intros [= <- <-]. split; [reflexivity|]. split; [auto|]. intros ? ? [=].
Qed.

(** X7: when the stored connection is reported connected, the acquisition
    step of [get_cursor] only probes it and asks it for a cursor with the
    given [dictionary] flag: [connect] is not called and the manager is
    unchanged. *)
Theorem acquire_cursor_reuses_live_connection (dictionary : bool) (s : state)
    (cnx : MySQLConnection) (d1 : dstate) :
  connection (fst s) = Some cnx ->
  drv_is_connected driver cnx (server (snd s)) = (true, d1) ->
  exists r w',
    acquire_cursor dictionary s = (r, (fst s, w')) /\
    fst (drv_cursor driver cnx dictionary d1) = r /\
    trace w' = trace (snd s) ++ [Call_is_connected cnx; Call_cursor cnx dictionary].
Proof.
  intros Hcnx Hlive. destruct s as [self w]. cbn [fst snd] in *.
  run_connect. rewrite Hcnx. run_connect. rewrite Hlive. run_connect.
  rewrite ?Hcnx. run_connect.
  destruct (drv_cursor driver cnx dictionary d1) as [r d2].
  do 2 eexists. split; [reflexivity|]. split; [reflexivity|].
  cbn [trace]. rewrite <- app_assoc. reflexivity.
Qed.

(** X8: when no connection is stored, or the stored one is reported not
    connected, the acquisition step of [get_cursor] calls [connect] first.
    When the driver gives a handle, it replaces the stored one, with no
    [close] called on the one it replaces, and the cursor is asked of the new
    handle, whether or not the driver reports it connected.  When the
    driver's [connect] raises, the acquisition raises that exception, the
    stored handle stays and no cursor is asked for. *)
Theorem acquire_cursor_connects_lazily (dictionary : bool) (s : state)
    (args : connect_args) (probe : list event) (d0 : dstate) :
  connect_arguments (config (db_config (fst s))) = Ok args ->
  (connection (fst s) = None /\ probe = [] /\ d0 = server (snd s) \/
   exists stale,
     connection (fst s) = Some stale /\
     drv_is_connected driver stale (server (snd s)) = (false, d0) /\
     probe = [Call_is_connected stale]) ->
  (forall cnx d1 live d2,
     drv_connect driver args d0 = (Ok cnx, d1) ->
     drv_is_connected driver cnx d1 = (live, d2) ->
     acquire_cursor dictionary s =
       (fst (drv_cursor driver cnx dictionary d2),
        ({| db_config := db_config (fst s); connection := Some cnx |},
         extend (snd s) (snd (drv_cursor driver cnx dictionary d2))
           (probe ++ [Call_connect args; Call_is_connected cnx] ++
            (if live : bool
             then [Printed (Msg_connected (database args))]
             else []) ++
            [Call_cursor cnx dictionary])))) /\
  (forall e d1,
     drv_connect driver args d0 = (Raise e, d1) ->
     acquire_cursor dictionary s =
       (Raise e,
        (fst s,
         extend (snd s) d1
           (probe ++ Call_connect args ::
            if isinstance_Error e then [Printed (Msg_connect_error e)] else [])))).
Proof.
  intros Hargs Hstart. destruct s as [self w]. cbn [fst snd] in *.
  pose proof (connect_arguments_database _ _ Hargs) as Hdb.
  unfold extend.
  destruct Hstart as [(Hcnx & -> & ->) | (stale & Hcnx & Hdead & ->)]; split.
  - intros cnx d1 live d2 Hconn Hlive.
    run_connect. rewrite Hcnx. run_connect. rewrite Hargs. run_connect.
    rewrite Hdb, Hconn. run_connect. rewrite Hlive.
    destruct live; run_connect;
      destruct (drv_cursor driver cnx dictionary d2) as [rc d3];
      cbn [fst snd app]; rewrite <- ?app_assoc; reflexivity.
  - intros e d1 Hconn.
    run_connect. rewrite Hcnx. run_connect. rewrite Hargs. run_connect.
    rewrite Hdb, Hconn. run_connect.
    destruct (isinstance_Error e); run_connect;
      cbn [app]; rewrite <- ?app_assoc; reflexivity.
  - intros cnx d1 live d2 Hconn Hlive.
    run_connect. rewrite Hcnx. run_connect. rewrite Hdead. run_connect.
    rewrite Hargs. run_connect.
    rewrite Hdb, Hconn. run_connect. rewrite Hlive.
    destruct live; run_connect;
      destruct (drv_cursor driver cnx dictionary d2) as [rc d3];
      cbn [fst snd app]; rewrite <- ?app_assoc; reflexivity.
  - intros e d1 Hconn.
    run_connect. rewrite Hcnx. run_connect. rewrite Hdead. run_connect.
    rewrite Hargs. run_connect.
    rewrite Hdb, Hconn. run_connect.
    destruct (isinstance_Error e); run_connect;
      cbn [app]; rewrite <- ?app_assoc; reflexivity.
Qed.

(** *** get_cursor *)

(** X9: when no cursor is obtained, the block is not run (the outcome is
    the same for every block) and neither [commit] nor the cursor's [close]
    is called.  An exception that is not a driver [Error] passes unchanged
    with nothing done.  A driver [Error] without a stored connection is
    reported and raised again; with a stored connection [rollback] is called
    first: when it returns, the error is reported and raised again, and when
    it raises, nothing is reported and the exception of [rollback] leaves
    instead. *)
Theorem get_cursor_acquisition_failure {A} (dictionary : bool)
    (block : MySQLCursor -> M world A) (s s1 : state) (e : exn) :
  acquire_cursor dictionary s = (Raise e, s1) ->
  (forall block' : MySQLCursor -> M world A,
     get_cursor dictionary block' s = get_cursor dictionary block s) /\
  get_cursor dictionary block s =
    if isinstance_Error e
    then
      match connection (fst s1) with
      | None =>
          (Raise e,
           (fst s1,
            extend (snd s1) (server (snd s1)) [Printed (Msg_database_error e)]))
      | Some cnx =>
          match drv_rollback driver cnx (server (snd s1)) with
          | (Ok _, d2) =>
              (Raise e,
               (fst s1,
                extend (snd s1) d2
                  [Call_rollback cnx; Printed (Msg_database_error e)]))
          | (Raise e1, d2) =>
              (Raise e1, (fst s1, extend (snd s1) d2 [Call_rollback cnx]))
          end
      end
    else (Raise e, s1).
Proof.
  intros Hacq. destruct s1 as [self1 w1]. cbn [fst snd].
  split.
  { intros block'. run. rewrite Hacq. reflexivity. }
  unfold extend. run. rewrite Hacq. run.
  destruct (isinstance_Error e); run; [|reflexivity].
  destruct (connection self1) as [cnx|]; run; [|reflexivity].
  destruct (drv_rollback driver cnx (server w1)) as [[[]|e1] d2]; run;
    rewrite <- ?app_assoc; reflexivity.
Qed.

(** A value leaves the [with] statement only after the driver's [commit]
    and the cursor's [close] have both returned. *)
Lemma get_cursor_Ok_exact {A} (dictionary : bool)
    (block : MySQLCursor -> M world A) (s s' : state) (a : A) :
  get_cursor dictionary block s = (Ok a, s') ->
  exists cur s1 w2 cnx d3 b d4,
    acquire_cursor dictionary s = (Ok cur, s1) /\
    block cur (snd s1) = (Ok a, w2) /\
    connection (fst s1) = Some cnx /\
    drv_commit driver cnx (server w2) = (Ok tt, d3) /\
    drv_cursor_close driver cur d3 = (Ok b, d4) /\
    s' = (fst s1, extend w2 d4 [Call_commit cnx; Call_cursor_close cur]).
Proof.
  intros Hrun.
  destruct (get_cursor_Ok_inv _ _ _ _ _ Hrun) as (cur & s1 & w2 & Hacq & Hblock).
  destruct (acquire_cursor_connection _ _ _ _ Hacq) as [cnx Hcnx].
  exists cur, s1, w2, cnx.
  destruct s1 as [self1 w1]; cbn [fst snd] in *. revert Hrun.
  run. rewrite Hacq. run. rewrite Hblock. run. rewrite Hcnx. run.
  destruct (drv_commit driver cnx (server w2)) as [[[]|e] d3] eqn:Hcommit; run.
  - destruct (drv_cursor_close driver cur d3) as [[b|e'] d4] eqn:Hclose; run;
      [|discriminate].
    intros [= <-]. exists d3, b, d4. unfold extend.
    rewrite <- app_assoc. repeat apply conj; try assumption; reflexivity.
  - destruct (isinstance_Error e); run.
    + rewrite Hcnx. run.
      destruct (drv_rollback driver cnx d3) as [[[]|e1] d4]; run;
        destruct (drv_cursor_close driver cur d4) as [[b|e'] d5]; run;
        discriminate.
    + destruct (drv_cursor_close driver cur d3) as [[b|e'] d4]; run;
        discriminate.
Qed.

(** X10: [get_cursor] lets a value out of the [with] statement only when the
    cursor was obtained, the block returned that value, and then the driver's
    [commit] on the stored connection and after it the cursor's [close] were
    called and both returned; these two calls are all that is done after the
    block. *)
Theorem get_cursor_returns_only_committed {A} (dictionary : bool)
    (block : MySQLCursor -> M world A) (s s' : state) (a : A) :
  get_cursor dictionary block s = (Ok a, s') ->
  exists cur s1 w2 cnx d3 b d4,
    acquire_cursor dictionary s = (Ok cur, s1) /\
    block cur (snd s1) = (Ok a, w2) /\
    connection (fst s1) = Some cnx /\
    drv_commit driver cnx (server w2) = (Ok tt, d3) /\
    drv_cursor_close driver cur d3 = (Ok b, d4) /\
    s' = (fst s1, extend w2 d4 [Call_commit cnx; Call_cursor_close cur]).
Proof.
  exact (get_cursor_Ok_exact dictionary block s s' a).
Qed.

(** *** execute_schema and test_connection *)

(** When the loop returns, the driver accepted every statement. *)
Lemma execute_statements_Ok_drive (statements : list string) (cur : MySQLCursor)
    (w w2 : world) :
  Forall (fun stmt => truthy stmt = true) statements ->
  execute_statements statements cur w = (Ok tt, w2) ->
  drive cur statements (server w) = (statements, None, server w2) /\
  w2 = extend w (server w2) (Call_execute cur <$> statements).
Proof.
  intros Hall Hrun.
  destruct (drive cur statements (server w)) as [[given failure] d2] eqn:Hdrive.
  destruct (execute_statements_drive _ _ _ _ _ _ Hall Hdrive) as [Hloop Hshape].
  rewrite Hrun in Hloop. destruct failure as [e|]; [discriminate|].
  injection Hloop as ->. subst given. cbn [extend server]. auto.
Qed.

(** X11: [execute_schema] returns only when the schema file was read, the
    cursor obtained, every statement of the file accepted by the driver in
    order, and then the driver's [commit] and the cursor's [close] called and
    returned; the success message is the last thing done. *)
Theorem execute_schema_returns_only_committed (schema_file : string)
    (s s' : state) :
  execute_schema schema_file s = (Ok tt, s') ->
  exists schema_sql cur s1 cnx d2 d3 b d4,
    files (snd s) !! schema_file = Some (Readable schema_sql) /\
    acquire_cursor true s = (Ok cur, s1) /\
    connection (fst s1) = Some cnx /\
    drive cur (split_statements schema_sql) (server (snd s1)) =
      (split_statements schema_sql, None, d2) /\
    drv_commit driver cnx d2 = (Ok tt, d3) /\
    drv_cursor_close driver cur d3 = (Ok b, d4) /\
    s' =
      (fst s1,
       extend (snd s1) d4
         ((Call_execute cur <$> split_statements schema_sql) ++
          [Call_commit cnx; Call_cursor_close cur;
           Printed (Msg_schema_executed schema_file)])).
Proof.
  destruct s as [self w]. cbn [fst snd]. run_method.
  destruct (files w !! schema_file) as [[schema_sql|e]|] eqn:Hfile; run_method.
  - destruct (get_cursor true (execute_statements (split_statements schema_sql))
                (self, w)) as [[[]|e] s2] eqn:Hgc; run_method.
    + intros [= <-].
      destruct (get_cursor_Ok_exact _ _ _ _ _ Hgc)
        as (cur & s1 & w2 & cnx & d3 & b & d4
            & Hacq & Hblock & Hcnx & Hcommit & Hclose & ->).
      destruct (execute_statements_Ok_drive _ _ _ _
                  (split_statements_truthy schema_sql) Hblock) as [Hdrive Hw2].
      exists schema_sql, cur, s1, cnx, (server w2), d3, b, d4.
      repeat apply conj; try assumption; try reflexivity.
      cbn [fst snd]. f_equal. rewrite Hw2. unfold extend.
      cbn [files server trace]. rewrite <- !app_assoc. reflexivity.
    + destruct (isinstance_Error e); run_method; discriminate.
  - destruct (isinstance_Error e); run_method; discriminate.
  - discriminate.
Qed.

(** The version query returns only when [execute] and [fetchone] did. *)
Lemma version_query_exact (cur : MySQLCursor) (w w' : world) (b : bool) :
  version_query cur w = (Ok b, w') ->
  b = true /\
  exists d1 version d2,
    drv_execute driver cur "SELECT VERSION()" (server w) = (Ok tt, d1) /\
    drv_fetchone driver cur d1 = (Ok version, d2) /\
    w' = extend w d2 [Call_execute cur "SELECT VERSION()"; Call_fetchone cur;
                      Printed (Msg_version version)].
Proof.
  unfold version_query. run.
  destruct (drv_execute driver cur _ (server w)) as [[[]|e] d1] eqn:Hexec; run;
    [|discriminate].
  destruct (drv_fetchone driver cur d1) as [[version|e] d2] eqn:Hfetch; run;
    [|discriminate].
  intros [= <- <-]. split; [reflexivity|]. exists d1, version, d2.
  unfold extend. cbn [files server trace]. rewrite <- !app_assoc.
  repeat apply conj; try assumption; reflexivity.
Qed.

(** X12: [test_connection] returns [True] only when [connect] returned, a
    cursor was obtained, the driver accepted [SELECT VERSION()] and gave a
    row, which was reported, the driver's [commit] and the cursor's [close]
    returned, and then the connection was probed and, if the driver reported
    it connected, closed with success.  It returns [False] only when
    [connect] or the scoped query raised a driver [Error], which was
    reported. *)
Theorem test_connection_result_evidence (s s' : state) (b : bool) :
  test_connection s = (Ok b, s') ->
  if b then
    exists c s0 cur s1 cnx d1 version d2 d3 closed d4,
      connect s = (Ok c, s0) /\
      acquire_cursor true s0 = (Ok cur, s1) /\
      connection (fst s1) = Some cnx /\
      drv_execute driver cur "SELECT VERSION()" (server (snd s1)) = (Ok tt, d1) /\
      drv_fetchone driver cur d1 = (Ok version, d2) /\
      drv_commit driver cnx d2 = (Ok tt, d3) /\
      drv_cursor_close driver cur d3 = (Ok closed, d4) /\
      match drv_is_connected driver cnx d4 with
      | (false, d5) =>
          s' =
            (fst s1,
             extend (snd s1) d5
               [Call_execute cur "SELECT VERSION()"; Call_fetchone cur;
                Printed (Msg_version version); Call_commit cnx;
                Call_cursor_close cur; Call_is_connected cnx])
      | (true, d5) =>
          exists d6,
            drv_close driver cnx d5 = (Ok tt, d6) /\
            s' =
              (fst s1,
               extend (snd s1) d6
                 [Call_execute cur "SELECT VERSION()"; Call_fetchone cur;
                  Printed (Msg_version version); Call_commit cnx;
                  Call_cursor_close cur; Call_is_connected cnx;
                  Call_close cnx; Printed Msg_closed])
      end
  else
    exists e sb rest,
      (connect ;; get_cursor true version_query) s = (Raise e, sb) /\
      isinstance_Error e = true /\
      fst s' = fst sb /\
      trace (snd s') = trace (snd sb) ++ Printed (Msg_test_failed e) :: rest /\
      count_event is_commit rest = 0.
Proof.
  unfold test_connection, try_finally.
  destruct (test_connection_guarded s) as [r1 s1] eqn:Hguard.
  rewrite disconnect_exact.
  revert Hguard. unfold test_connection_guarded, try_except.
  destruct ((connect ;; get_cursor true version_query) s) as [[b0|e] s0] eqn:Hbody.
  - intros [= <- <-].
    apply bind_Ok_inv in Hbody as (c & sa & Hconn & Hgc).
    destruct (get_cursor_Ok_exact _ _ _ _ _ Hgc)
      as (cur & sq & w2 & cnx & d3 & closed & d4
          & Hacq & Hq & Hcnx & Hcommit & Hclose & ->).
    destruct (version_query_exact _ _ _ _ Hq)
      as (-> & d1 & version & d2 & Hexec & Hfetch & ->).
    cbn [fst snd extend server files trace] in *. rewrite Hcnx.
    destruct (drv_is_connected driver cnx d4) as [[|] d5] eqn:Hlive.
    + destruct (drv_close driver cnx d5) as [[[]|ec] d6] eqn:Hcl;
        [|discriminate].
      intros [= <- <-].
      exists c, sa, cur, sq, cnx, d1, version, d2, d3, closed, d4.
      repeat apply conj; try assumption. rewrite Hlive.
      exists d6. split; [exact Hcl|]. f_equal. unfold extend.
      cbn [files server trace]. rewrite <- !app_assoc. reflexivity.
    + intros [= <- <-].
      exists c, sa, cur, sq, cnx, d1, version, d2, d3, closed, d4.
      repeat apply conj; try assumption. rewrite Hlive.
      f_equal. unfold extend.
      cbn [files server trace]. rewrite <- !app_assoc. reflexivity.
  - destruct (isinstance_Error e) eqn:Herr.
    + run_method. intros [= <- <-]. cbn [fst snd].
      destruct (connection (fst s0)) as [cnx|].
      * cbn [server trace files].
        destruct (drv_is_connected driver cnx (server (snd s0))) as [[|] d5].
        -- destruct (drv_close driver cnx d5) as [[[]|ec] d6]; [|discriminate].
           intros [= <- <-]. exists e, s0. eexists.
           split; [reflexivity|]. split; [exact Herr|]. split; [reflexivity|].
           cbn [snd extend trace]. rewrite <- !app_assoc.
           split; reflexivity.
        -- intros [= <- <-]. exists e, s0. eexists.
           split; [reflexivity|]. split; [exact Herr|]. split; [reflexivity|].
           cbn [snd extend trace]. rewrite <- !app_assoc.
           split; reflexivity.
      * intros [= <- <-]. exists e, s0, [].
        split; [reflexivity|]. split; [exact Herr|]. split; [reflexivity|].
        split; reflexivity.
    + intros [= <- <-]. destruct (connection (fst s0)) as [cnx|].
      * destruct (drv_is_connected driver cnx (server (snd s0))) as [[|] d5];
          [destruct (drv_close driver cnx d5) as [[[]|ec] d6]|]; discriminate.
      * discriminate.
Qed.

(** *** get_db_cursor *)

Lemma DatabaseConnection_init_inv (path : string) (w w' : world)
    (r : result DatabaseConnection) :
  DatabaseConnection_init path w = (r, w') ->
  w' = w /\ (forall db, r = Ok db -> connection db = None).
Proof.
  unfold DatabaseConnection_init, DatabaseConfig_init.
  unfold bind at 1 2. unfold ret.
  destruct (load_config path w) as [[v|e] w0] eqn:Hload;
    destruct (load_config_inv _ _ _ _ Hload) as [-> _];
    intros [= <- <-]; (split; [reflexivity|]).
  - intros db [= <-]. reflexivity.
  - intros db [=].
Qed.

Ltac run_db_cursor :=
  cbv beta iota delta [get_db_cursor with_local try_finally bind];
  cbn [fst snd].

(** X13: [get_db_cursor] fails before the block is run when the
    configuration cannot be loaded (the exception of the constructor, with
    the world untouched) and when [connect] raises (that same exception, with
    nothing done after [connect]: no [rollback], no [close]). *)
Theorem get_db_cursor_fails_early {A} (path : string) (dictionary : bool)
    (block : MySQLCursor -> M world A) (w : world) :
  (forall e w0,
     DatabaseConnection_init path w = (Raise e, w0) ->
     get_db_cursor path dictionary block w = (Raise e, w)) /\
  (forall db w0 e s1,
     DatabaseConnection_init path w = (Ok db, w0) ->
     connect (db, w) = (Raise e, s1) ->
     get_db_cursor path dictionary block w = (Raise e, snd s1)).
Proof.
  split.
  - intros e w0 Hinit.
    destruct (DatabaseConnection_init_inv _ _ _ _ Hinit) as [-> _].
    run_db_cursor. rewrite Hinit. reflexivity.
  - intros db w0 e s1 Hinit Hconn.
    destruct (DatabaseConnection_init_inv _ _ _ _ Hinit) as [-> Hnone].
    pose proof (Hnone db eq_refl) as Hdb.
    pose proof (connect_raises_unchanged _ _ _ Hconn) as Hself.
    destruct s1 as [self1 w1]. cbn [fst snd] in *. subst self1.
    run_db_cursor. rewrite Hinit. run_db_cursor. rewrite Hconn.
    unfold disconnect. run_connect. rewrite Hdb. reflexivity.
Qed.

(** X14: once the manager is built, [get_db_cursor] runs [disconnect] last
    on every path, whatever [connect], the block, [commit] or [rollback] did:
    nothing is done without a stored connection; otherwise the connection is
    probed and, when the driver reports it connected, closed.  The outcome is
    that of [connect] and the scoped block unless [close] raises, in which
    case its exception leaves instead. *)
Theorem get_db_cursor_always_disconnects {A} (path : string) (dictionary : bool)
    (block : MySQLCursor -> M world A) (w w0 : world) (db : DatabaseConnection)
    (rb : result A) (sb : state) :
  DatabaseConnection_init path w = (Ok db, w0) ->
  (connect ;; get_cursor dictionary block) (db, w) = (rb, sb) ->
  get_db_cursor path dictionary block w =
    match connection (fst sb) with
    | None => (rb, snd sb)
    | Some cnx =>
        match drv_is_connected driver cnx (server (snd sb)) with
        | (false, d1) => (rb, extend (snd sb) d1 [Call_is_connected cnx])
        | (true, d1) =>
            match drv_close driver cnx d1 with
            | (Ok _, d2) =>
                (rb,
                 extend (snd sb) d2
                   [Call_is_connected cnx; Call_close cnx; Printed Msg_closed])
            | (Raise e, d2) =>
                (Raise e,
                 extend (snd sb) d2 [Call_is_connected cnx; Call_close cnx])
            end
        end
    end.
Proof.
  intros Hinit Hbody.
  destruct (DatabaseConnection_init_inv _ _ _ _ Hinit) as [-> _].
  run_db_cursor. rewrite Hinit. run_db_cursor.
  change (let (r, s') := connect (db, w) in
          match r with
          | Ok a => get_cursor dictionary block s'
          | Raise e => (Raise e, s')
          end)
    with ((connect ;; get_cursor dictionary block) (db, w)).
  rewrite Hbody, disconnect_exact.
  destruct (connection (fst sb)) as [cnx|]; [|reflexivity].
  destruct (drv_is_connected driver cnx (server (snd sb))) as [[|] d1];
    [|reflexivity].
  destruct (drv_close driver cnx d1) as [[[]|e] d2]; reflexivity.
Qed.

(** X15: [get_db_cursor] lets a value out only when the manager was built,
    [connect] returned, a cursor was obtained, the block run on the world the
    acquisition left returned that value, the driver's [commit] and the
    cursor's [close] returned, and then the connection was probed and, if
    the driver reported it connected, closed with success. *)
Theorem get_db_cursor_returns_only_committed {A} (path : string)
    (dictionary : bool) (block : MySQLCursor -> M world A) (w w' : world) (a : A) :
  get_db_cursor path dictionary block w = (Ok a, w') ->
  exists db c s0 cur s1 w2 cnx d3 closed d4,
    DatabaseConnection_init path w = (Ok db, w) /\
    connect (db, w) = (Ok c, s0) /\
    acquire_cursor dictionary s0 = (Ok cur, s1) /\
    block cur (snd s1) = (Ok a, w2) /\
    connection (fst s1) = Some cnx /\
    drv_commit driver cnx (server w2) = (Ok tt, d3) /\
    drv_cursor_close driver cur d3 = (Ok closed, d4) /\
    match drv_is_connected driver cnx d4 with
    | (false, d5) =>
        w' = extend w2 d5
               [Call_commit cnx; Call_cursor_close cur; Call_is_connected cnx]
    | (true, d5) =>
        exists d6,
          drv_close driver cnx d5 = (Ok tt, d6) /\
          w' = extend w2 d6
                 [Call_commit cnx; Call_cursor_close cur; Call_is_connected cnx;
                  Call_close cnx; Printed Msg_closed]
    end.
Proof.
  run_db_cursor.
  destruct (DatabaseConnection_init path w) as [[db|e] w0] eqn:Hinit;
    [|discriminate].
  destruct (DatabaseConnection_init_inv _ _ _ _ Hinit) as [-> _].
  run_db_cursor.
  change (let (r, s') := connect (db, w) in
          match r with
          | Ok a => get_cursor dictionary block s'
          | Raise e => (Raise e, s')
          end)
    with ((connect ;; get_cursor dictionary block) (db, w)).
  destruct ((connect ;; get_cursor dictionary block) (db, w)) as [[a0|e] sb] eqn:Hbody.
  - apply bind_Ok_inv in Hbody as (c & s0 & Hconn & Hgc).
    destruct (get_cursor_Ok_exact _ _ _ _ _ Hgc)
      as (cur & s1 & w2 & cnx & d3 & closed & d4
          & Hacq & Hblock & Hcnx & Hcommit & Hclose & ->).
    rewrite disconnect_exact. cbn [fst snd extend server files trace].
    rewrite Hcnx.
    destruct (drv_is_connected driver cnx d4) as [[|] d5] eqn:Hlive.
    + destruct (drv_close driver cnx d5) as [[[]|ec] d6] eqn:Hcl;
        [|discriminate].
      intros [= <- <-].
      exists db, c, s0, cur, s1, w2, cnx, d3, closed, d4.
      repeat apply conj; try assumption; try reflexivity. rewrite Hlive.
      exists d6. split; [exact Hcl|]. unfold extend.
      cbn [files server trace]. rewrite <- !app_assoc. reflexivity.
    + intros [= <- <-].
      exists db, c, s0, cur, s1, w2, cnx, d3, closed, d4.
      repeat apply conj; try assumption; try reflexivity. rewrite Hlive.
      unfold extend. cbn [files server trace]. rewrite <- !app_assoc.
      reflexivity.
  - rewrite disconnect_exact.
    destruct (connection (fst sb)) as [cnx|].
    + destruct (drv_is_connected driver cnx (server (snd sb))) as [[|] d5];
        [destruct (drv_close driver cnx d5) as [[[]|ec] d6]|]; discriminate.
    + discriminate.
Qed.

(** *** Splitting the schema text *)

Lemma split_app (sep : ascii) (a b : string) :
  split sep (a +:+ String sep b) = split sep a ++ split sep b.
Proof.
  induction a as [|ch rest IH].
  - change (split sep (String sep b) = [EmptyString] ++ split sep b).
    cbn [split app]. destruct (decide (sep = sep)); [reflexivity|congruence].
  - change (split sep (String ch (rest +:+ String sep b)) =
            split sep (String ch rest) ++ split sep b).
    cbn [split]. rewrite IH.
    destruct (decide (ch = sep)); [reflexivity|].
    destruct (split_cons sep rest) as (frag & frags & ->). reflexivity.
Qed.

(** X16: the statements of two texts joined by a [;] are the statements of
    the first followed by those of the second: every [;] cuts, wherever it
    stands. *)
Theorem split_statements_app (a b : string) :
  split_statements (a +:+ String ";" b) = split_statements a ++ split_statements b.
Proof.
  unfold split_statements.
  rewrite (split_app ";" a b), filter_app, fmap_app. reflexivity.
Qed.

Lemma split_no_sep (sep : ascii) (s : string) :
  Forall (fun frag => occurs sep frag = false) (split sep s).
Proof.
  induction s as [|ch rest IH]; cbn [split].
  - repeat constructor.
  - destruct (decide (ch = sep)) as [->|Hne].
    + constructor; [reflexivity|exact IH].
    + destruct (split sep rest) as [|frag frags]; [repeat constructor|].
      * cbn. rewrite bool_decide_eq_false_2 by exact Hne. reflexivity.
      * inversion IH; subst. constructor; [|assumption].
        cbn. rewrite bool_decide_eq_false_2 by exact Hne. assumption.
Qed.

Lemma lstrip_occurs (ch : ascii) (s : string) :
  occurs ch s = false -> occurs ch (lstrip s) = false.
Proof.
  induction s as [|c rest IH]; [reflexivity|].
  cbn [lstrip]. destruct (py_isspace c); [|auto].
  cbn [occurs]. intros [_ H]%orb_false_elim. exact (IH H).
Qed.

Lemma rstrip_occurs (ch : ascii) (s : string) :
  occurs ch s = false -> occurs ch (rstrip s) = false.
Proof.
  induction s as [|c rest IH]; [reflexivity|].
  cbn [occurs rstrip]. intros [Hc Hrest]%orb_false_elim.
  specialize (IH Hrest).
  destruct (rstrip rest) as [|c' kept].
  - destruct (py_isspace c); [reflexivity|].
    cbn [occurs]. rewrite Hc. reflexivity.
  - cbn [occurs] in *. rewrite Hc. exact IH.
Qed.

Lemma rstrip_head (c : ascii) (rest : string) :
  py_isspace c = false -> exists kept, rstrip (String c rest) = String c kept.
Proof.
  intros Hc. cbn [rstrip]. rewrite Hc. destruct (rstrip rest); eauto.
Qed.

Lemma lstrip_decompose (s : string) :
  exists lead,
    s = String.append lead (lstrip s) /\ all_whitespace lead = true.
Proof.
  induction s as [|c rest IH].
  - exists EmptyString. split; reflexivity.
  - cbn [lstrip]. destruct (py_isspace c) eqn:Hc.
    + destruct IH as (lead & Hrest & Hlead).
      exists (String c lead). split.
      * change (String c rest = String c (String.append lead (lstrip rest))).
        rewrite <- Hrest. reflexivity.
      * cbn [all_whitespace]. rewrite Hc, Hlead. reflexivity.
    + exists EmptyString. split; reflexivity.
Qed.

Lemma rstrip_decompose (s : string) :
  exists trail,
    s = String.append (rstrip s) trail /\ all_whitespace trail = true.
Proof.
  induction s as [|c rest IH].
  - exists EmptyString. split; reflexivity.
  - destruct IH as (trail & Hrest & Htrail). cbn [rstrip].
    destruct (rstrip rest) as [|c' kept].
    + change (rest = trail) in Hrest. subst trail.
      destruct (py_isspace c) eqn:Hc.
      * exists (String c rest). split; [reflexivity|].
        cbn [all_whitespace]. rewrite Hc, Htrail. reflexivity.
      * exists rest. split; [reflexivity|exact Htrail].
    + exists trail. split; [|exact Htrail].
      change (String c rest =
              String c (String.append (String c' kept) trail)).
      rewrite <- Hrest. reflexivity.
Qed.

Lemma last_char_cons (c : ascii) (s : string) :
  last_char (String c s) <> None.
Proof.
  revert c. induction s as [|c' rest IH]; intros c; [discriminate|].
  exact (IH c').
Qed.

Lemma rstrip_last_ink (s : string) :
  match last_char (rstrip s) with
  | Some c => py_isspace c = false
  | None => True
  end.
Proof.
  induction s as [|c rest IH]; [exact I|].
  cbn [rstrip]. destruct (rstrip rest) as [|c' kept].
  - destruct (py_isspace c) eqn:Hc; [exact I|exact Hc].
  - exact IH.
Qed.

(** X17: every statement handed to [execute] is what is left of a fragment
    of the text between two [;] once the whitespace at its two ends is taken
    away: it contains no [;], its first and its last character are not
    whitespace, and the fragment is the statement between two runs of
    whitespace. *)
Theorem split_statements_clean (schema_sql : string) :
  Forall (fun stmt =>
            occurs ";" stmt = false /\
            (exists c rest, stmt = String c rest /\ py_isspace c = false) /\
            (exists c, last_char stmt = Some c /\ py_isspace c = false) /\
            exists frag lead trail,
              frag ∈ split ";" schema_sql /\
              frag = String.append lead (String.append stmt trail) /\
              all_whitespace lead = true /\
              all_whitespace trail = true)
    (split_statements schema_sql).
Proof.
  unfold split_statements. apply Forall_forall. intros stmt Hin.
  apply list_elem_of_fmap in Hin as (frag & -> & Hfrag).
  apply list_elem_of_filter in Hfrag as [Htruthy Hfrag].
  pose proof (split_no_sep ";" schema_sql) as Hsep.
  rewrite Forall_forall in Hsep. specialize (Hsep frag Hfrag).
  assert (all_whitespace frag = false) as Hws.
  { rewrite strip_truthy in Htruthy.
    destruct (all_whitespace frag); [discriminate|reflexivity]. }
  split; [unfold strip; apply rstrip_occurs, lstrip_occurs, Hsep|].
  destruct (lstrip_decompose frag) as (lead & Hlead & Hleadws).
  destruct (rstrip_decompose (lstrip frag)) as (trail & Htrail & Htrailws).
  unfold strip in *.
  destruct (lstrip_some_ink frag Hws) as (c & rest & Hl & Hc).
  destruct (rstrip_head c rest Hc) as [kept Hkept].
  split; [rewrite Hl, Hkept; eauto|].
  split.
  - pose proof (rstrip_last_ink (lstrip frag)) as Hlast.
    destruct (last_char (rstrip (lstrip frag))) as [c'|] eqn:Hlc; [eauto|].
    rewrite Hl, Hkept in Hlc. destruct (last_char_cons _ _ Hlc).
  - exists frag, lead, trail.
    split; [exact Hfrag|]. split; [|auto].
    rewrite <- Htrail. exact Hlead.
Qed.

End Code.

(** ** Examples on the simulated server *)

Lemma load_config_outcomes_witness :
  load_config sample_json_load "absent.json" (sample_world []) =
    (Raise (FileNotFoundError
              "Configuration file 'absent.json' not found. Please create it from my.json.example"),
     sample_world []) /\
  load_config sample_json_load "empty.json" (sample_world []) =
    (Raise (ValueError "Database configuration not found in my.json"),
     sample_world []) /\
  load_config sample_json_load "my.json" (sample_world []) =
    (Ok (JDict sample_database), sample_world []).
Proof.
  split; [|split].
  - exact (proj1 (load_config_outcomes sample_json_load "absent.json"
                    (sample_world [])) eq_refl).
  - exact (proj2 (load_config_outcomes sample_json_load "empty.json"
                    (sample_world [])) "{}" ∅ eq_refl eq_refl).
  - exact (proj2 (load_config_outcomes sample_json_load "my.json"
                    (sample_world []))
             "{database: {host, user, password, database}}"
             {[ "database" := JDict sample_database ]} eq_refl eq_refl).
Defined.

Lemma get_telegram_config_reads_file_witness :
  get_telegram_config sample_json_load
    {| config_file := "my.json"; config := JNull |} (sample_world []) =
    (Ok (JDict ∅), sample_world []).
Proof.
  apply (proj2 (get_telegram_config_reads_file sample_json_load
                  {| config_file := "my.json"; config := JNull |}
                  (sample_world [])
                  "{database: {host, user, password, database}}"
                  {[ "database" := JDict sample_database ]}
                  eq_refl eq_refl)).
  reflexivity.
Defined.







Lemma execute_schema_runs_statements_witness :
  (exists w3,
     execute_schema sim_driver "database_schema.sql" (sample_state []) =
       (Ok tt, (fst (sample_acquired []), w3)) /\
     trace w3 =
       trace (snd (sample_acquired [])) ++
       [Call_execute 2 "CREATE TABLE a(id INT)"; Call_execute 2 "CREATE TABLE b(id INT)"; Call_commit 1;
        Call_cursor_close 2; Printed (Msg_schema_executed "database_schema.sql")]) /\
  (exists w3,
     execute_schema sim_driver "database_schema.sql" (sample_state ["CREATE TABLE a(id INT)"]) =
       (Raise (Error "You have an error in your SQL syntax"), (fst (sample_acquired ["CREATE TABLE a(id INT)"]), w3)) /\
     trace w3 =
       trace (snd (sample_acquired ["CREATE TABLE a(id INT)"])) ++
       [Call_execute 2 "CREATE TABLE a(id INT)"; Call_rollback 1;
        Printed (Msg_database_error (Error "You have an error in your SQL syntax")); Call_cursor_close 2;
        Printed (Msg_schema_error (Error "You have an error in your SQL syntax"))]).
Proof.
  split.
  - destruct (execute_schema_runs_statements sim_driver "database_schema.sql" sample_schema
                (sample_state []) (sample_acquired []) 2 ["CREATE TABLE a(id INT)"; "CREATE TABLE b(id INT)"] None
                (server (snd (sample_acquired []))) eq_refl eq_refl eq_refl)
      as (_ & _ & _ & _ & cnx & r & w3 & tail & Hcnx & Hrun & Htrace & _ & Hcase).
    cbv beta iota in Hcase. destruct Hcase as (_ & tail' & -> & _ & Hfin).
    change (Some 1 = Some cnx) in Hcnx. injection Hcnx as <-.
    destruct (Hfin (server (snd (sample_acquired []))) true
                (server (snd (sample_acquired []))) eq_refl eq_refl) as [-> ->].
    exists w3. split; [exact Hrun|exact Htrace].
  - destruct (execute_schema_runs_statements sim_driver "database_schema.sql" sample_schema
                (sample_state ["CREATE TABLE a(id INT)"]) (sample_acquired ["CREATE TABLE a(id INT)"]) 2 ["CREATE TABLE a(id INT)"]
                (Some (Error "You have an error in your SQL syntax")) (server (snd (sample_acquired ["CREATE TABLE a(id INT)"])))
                eq_refl eq_refl eq_refl)
      as (_ & _ & _ & _ & cnx & r & w3 & tail & Hcnx & Hrun & Htrace & _ & Hcase).
    cbv beta iota in Hcase. cbn [isinstance_Error] in Hcase.
    destruct Hcase as (_ & _ & _ & tail' & -> & _ & Hfin).
    change (Some 1 = Some cnx) in Hcnx. injection Hcnx as <-.
    destruct (Hfin (server (snd (sample_acquired ["CREATE TABLE a(id INT)"]))) true
                (server (snd (sample_acquired ["CREATE TABLE a(id INT)"]))) eq_refl eq_refl)
      as [-> ->].
    exists w3. split; [exact Hrun|exact Htrace].
Defined.

(** The driver fails on the first statement with an exception that is not
    a driver [Error]: the loop stops, nothing is committed, and [rollback] is
    not called either. *)
Lemma execute_schema_no_rollback_on_OSError :
  let out := execute_schema pipe_driver "database_schema.sql" (sample_state ["CREATE TABLE a(id INT)"]) in
  fst out = Raise (OSError "[Errno 32] Broken pipe") /\
  count_event is_execute (trace (snd (snd out))) = 1 /\
  count_event is_commit (trace (snd (snd out))) = 0 /\
  count_event is_rollback (trace (snd (snd out))) = 0.
Proof.
  vm_compute. repeat apply conj; reflexivity.
Qed.

Lemma execute_schema_failures_witness :
  execute_schema sim_driver "absent.sql" (sample_state []) =
    (Raise (FileNotFoundError "absent.sql"), sample_state []) /\
  exists cnx e' w3 tail,
    execute_schema sim_driver "database_schema.sql"
      (sample_state ["CREATE TABLE b(id INT)"]) =
      (Raise e', (fst (sample_acquired ["CREATE TABLE b(id INT)"]), w3)) /\
    trace w3 =
      trace (sample_acquired_world ["CREATE TABLE b(id INT)"]
               [Call_execute 2 "CREATE TABLE a(id INT)";
                Call_execute 2 "CREATE TABLE b(id INT)"]) ++
      Call_rollback cnx :: tail /\
    count_event is_commit tail = 0.
Proof.
  split.
  - apply (proj1 (execute_schema_failures sim_driver "absent.sql"
                    (sample_state []))).
    reflexivity.
  - destruct (proj2 (proj2 (execute_schema_failures sim_driver
                              "database_schema.sql"
                              (sample_state ["CREATE TABLE b(id INT)"])))
                sample_schema (sample_acquired ["CREATE TABLE b(id INT)"]) 2
                (Error "You have an error in your SQL syntax")
                (sample_acquired_world ["CREATE TABLE b(id INT)"]
                   [Call_execute 2 "CREATE TABLE a(id INT)";
                    Call_execute 2 "CREATE TABLE b(id INT)"])
                eq_refl eq_refl eq_refl eq_refl)
      as (cnx & e' & w3 & tail & _ & H2 & H3 & H4 & _).
    exists cnx, e', w3, tail. repeat apply conj; assumption.
Defined.

(** The schema file is missing: [execute_schema] raises the
    [FileNotFoundError] of [open], which is not a driver [Error]. *)
Lemma execute_schema_missing_file_not_Error :
  fst (execute_schema sim_driver "absent.sql" (sample_state [])) =
    Raise (FileNotFoundError "absent.sql") /\
  isinstance_Error (FileNotFoundError "absent.sql") = false /\
  forall msg,
    fst (execute_schema sim_driver "absent.sql" (sample_state [])) <>
      Raise (Error msg).
Proof.
  vm_compute. repeat apply conj; try reflexivity. intros msg. discriminate.
Qed.

Lemma test_connection_outcomes_witness :
  test_connection sim_driver (sample_state []) =
    (Ok true,
     (fst (sample_at 1 [1] 3 [] [Call_connect sample_args; Call_is_connected 1; Printed (Msg_connected (JStr "media")); Call_is_connected 1; Call_cursor 1 true;
       Call_execute 2 "SELECT VERSION()"; Call_fetchone 2;
       Printed (Msg_version "{'VERSION()': '8.0.36'}"); Call_commit 1; Call_cursor_close 2]),
      extend (snd (sample_at 1 [1] 3 [] [Call_connect sample_args; Call_is_connected 1; Printed (Msg_connected (JStr "media")); Call_is_connected 1; Call_cursor 1 true;
       Call_execute 2 "SELECT VERSION()"; Call_fetchone 2;
       Printed (Msg_version "{'VERSION()': '8.0.36'}"); Call_commit 1; Call_cursor_close 2])) {| sim_up := true; sim_open := []; sim_next := 3; sim_rejects := [] |}
        [Call_is_connected 1; Call_close 1; Printed Msg_closed])) /\
  test_connection lost_commit_driver (sample_state []) =
    (Ok false,
     (fst (sample_at 1 [1] 3 [] [Call_connect sample_args; Call_is_connected 1; Printed (Msg_connected (JStr "media")); Call_is_connected 1; Call_cursor 1 true;
       Call_execute 2 "SELECT VERSION()"; Call_fetchone 2;
       Printed (Msg_version "{'VERSION()': '8.0.36'}"); Call_commit 1; Call_rollback 1;
       Printed (Msg_database_error (Error "Lost connection to MySQL server during query")); Call_cursor_close 2]),
      extend
        (extend (snd (sample_at 1 [1] 3 [] [Call_connect sample_args; Call_is_connected 1; Printed (Msg_connected (JStr "media")); Call_is_connected 1; Call_cursor 1 true;
       Call_execute 2 "SELECT VERSION()"; Call_fetchone 2;
       Printed (Msg_version "{'VERSION()': '8.0.36'}"); Call_commit 1; Call_rollback 1;
       Printed (Msg_database_error (Error "Lost connection to MySQL server during query")); Call_cursor_close 2])) {| sim_up := true; sim_open := [1]; sim_next := 3; sim_rejects := [] |}
           [Printed (Msg_test_failed (Error "Lost connection to MySQL server during query"))])
        {| sim_up := true; sim_open := []; sim_next := 3; sim_rejects := [] |}
        [Call_is_connected 1; Call_close 1; Printed Msg_closed])) /\
  test_connection dead_driver (sample_state []) =
    (Ok true,
     (fst (sample_at 2 [2; 1] 4 []
      [Call_connect sample_args; Call_is_connected 1; Call_is_connected 1;
       Call_connect sample_args; Call_is_connected 2; Call_cursor 2 true;
       Call_execute 3 "SELECT VERSION()"; Call_fetchone 3;
       Printed (Msg_version "{'VERSION()': '8.0.36'}");
       Call_commit 2; Call_cursor_close 3]),
      extend (snd (sample_at 2 [2; 1] 4 []
      [Call_connect sample_args; Call_is_connected 1; Call_is_connected 1;
       Call_connect sample_args; Call_is_connected 2; Call_cursor 2 true;
       Call_execute 3 "SELECT VERSION()"; Call_fetchone 3;
       Printed (Msg_version "{'VERSION()': '8.0.36'}");
       Call_commit 2; Call_cursor_close 3])) {| sim_up := true; sim_open := [2; 1]; sim_next := 4; sim_rejects := [] |} [Call_is_connected 2])).
Proof.
  split; [|split].
  - destruct (test_connection_outcomes sim_driver (sample_state [])
                (sample_at 1 [1] 3 [] [Call_connect sample_args; Call_is_connected 1; Printed (Msg_connected (JStr "media")); Call_is_connected 1; Call_cursor 1 true;
       Call_execute 2 "SELECT VERSION()"; Call_fetchone 2;
       Printed (Msg_version "{'VERSION()': '8.0.36'}"); Call_commit 1; Call_cursor_close 2]) (Ok true) eq_refl) as (r1 & w1 & Hk & _ & Hfin).
    cbv beta iota in Hk. destruct Hk as [-> ->]. exact Hfin.
  - destruct (test_connection_outcomes lost_commit_driver (sample_state [])
                (sample_at 1 [1] 3 [] [Call_connect sample_args; Call_is_connected 1; Printed (Msg_connected (JStr "media")); Call_is_connected 1; Call_cursor 1 true;
       Call_execute 2 "SELECT VERSION()"; Call_fetchone 2;
       Printed (Msg_version "{'VERSION()': '8.0.36'}"); Call_commit 1; Call_rollback 1;
       Printed (Msg_database_error (Error "Lost connection to MySQL server during query")); Call_cursor_close 2]) (Raise (Error "Lost connection to MySQL server during query")) eq_refl) as (r1 & w1 & Hk & _ & Hfin).
    cbv beta iota in Hk. cbn [isinstance_Error] in Hk.
    destruct Hk as [-> ->]. exact Hfin.
  - destruct (test_connection_outcomes dead_driver (sample_state [])
                (sample_at 2 [2; 1] 4 []
      [Call_connect sample_args; Call_is_connected 1; Call_is_connected 1;
       Call_connect sample_args; Call_is_connected 2; Call_cursor 2 true;
       Call_execute 3 "SELECT VERSION()"; Call_fetchone 3;
       Printed (Msg_version "{'VERSION()': '8.0.36'}");
       Call_commit 2; Call_cursor_close 3]) (Ok true) eq_refl) as (r1 & w1 & Hk & _ & Hfin).
    cbv beta iota in Hk. destruct Hk as [-> ->]. exact Hfin.
Defined.

(** A configuration file whose ['database'] section has no ['host'] is
    accepted at construction, and then [test_connection] does not return
    [False]: the [KeyError] of [connect] reaches the caller. *)
Lemma test_connection_propagates_KeyError :
  fst (DatabaseConnection_init sample_json_load "nohost.json" (sample_world [])) =
    Ok (sample_self "nohost.json" ∅) /\
  test_connection sim_driver (sample_self "nohost.json" ∅, sample_world []) =
    (Raise (KeyError "host"), (sample_self "nohost.json" ∅, sample_world [])).
Proof.
  split; reflexivity.
Qed.

(** ** Examples for the further properties *)

Lemma load_config_returns_only_section_witness :
  exists text m,
    files (sample_world []) !! "my.json" = Some (Readable text) /\
    sample_json_load text = Ok (JDict m) /\
    m !! "database" = Some (JDict sample_database).
Proof.
  exact (proj2 (load_config_returns_only_section sample_json_load "my.json"
                  (sample_world []) (sample_world [])
                  (Ok (JDict sample_database)) eq_refl)
           (JDict sample_database) eq_refl).
Defined.

Lemma get_db_connection_fresh_witness :
  sample_world [] = sample_world [] /\
  connection (sample_self "my.json" sample_database) = None /\
  config_file (db_config (sample_self "my.json" sample_database)) = "my.json" /\
  load_config sample_json_load "my.json" (sample_world []) =
    (Ok (JDict sample_database), sample_world []).
Proof.
  exact (get_db_connection_fresh sample_json_load "my.json"
           (sample_world []) (sample_world [])
           (Ok (sample_self "my.json" sample_database)) eq_refl).
Defined.

Lemma get_telegram_config_outcomes_witness :
  Raise (FileNotFoundError "absent.json") =
    fst (get_telegram_config sample_json_load
           {| config_file := "absent.json"; config := JNull |} (sample_world [])).
Proof.
  symmetry.
  exact (proj1 (proj2 (get_telegram_config_outcomes sample_json_load
                         {| config_file := "absent.json"; config := JNull |}
                         (sample_world []) (sample_world [])
                         (fst (get_telegram_config sample_json_load
                                 {| config_file := "absent.json"; config := JNull |}
                                 (sample_world [])))
                         eq_refl))
           eq_refl).
Defined.

Lemma connect_missing_key_witness :
  connect sim_driver
    (sample_self "my.json" {[ "host" := JStr "db.local" ]}, sample_world []) =
    (Raise (KeyError "user"),
     (sample_self "my.json" {[ "host" := JStr "db.local" ]}, sample_world [])).
Proof.
  exact (connect_missing_key sim_driver
           (sample_self "my.json" {[ "host" := JStr "db.local" ]}, sample_world [])
           {[ "host" := JStr "db.local" ]} "user" eq_refl eq_refl).
Defined.

Lemma disconnect_keeps_handle_witness :
  connection (fst (snd (disconnect sim_driver sample_connected))) = Some 1.
Proof.
  rewrite (proj1 (disconnect_keeps_handle sim_driver sample_connected
                    (snd (disconnect sim_driver sample_connected))
                    (fst (disconnect sim_driver sample_connected)) eq_refl)).
  reflexivity.
Defined.

Lemma acquire_cursor_reuses_live_connection_witness :
  exists r w',
    acquire_cursor sim_driver true sample_connected =
      (r, (fst sample_connected, w')) /\
    fst (drv_cursor sim_driver 1 true (server (snd sample_connected))) = r /\
    trace w' =
      trace (snd sample_connected) ++ [Call_is_connected 1; Call_cursor 1 true].
Proof.
  exact (acquire_cursor_reuses_live_connection sim_driver true sample_connected
           1 (server (snd sample_connected)) eq_refl eq_refl).
Defined.

Lemma get_db_cursor_fails_early_witness :
  get_db_cursor sim_driver sample_json_load "empty.json" true
    (fun _ => ret tt) (sample_world []) =
    (Raise (ValueError "Database configuration not found in my.json"),
     sample_world []) /\
  get_db_cursor sim_driver sample_json_load "my.json" true
    (fun _ => ret tt) (snd offline_state) =
    (Raise (Error "Can't connect to MySQL server"),
     snd (snd (connect sim_driver offline_state))).
Proof.
  split.
  - exact (proj1 (get_db_cursor_fails_early sim_driver sample_json_load
                    "empty.json" true (fun _ => ret tt) (sample_world []))
             (ValueError "Database configuration not found in my.json")
             (sample_world []) eq_refl).
  - exact (proj2 (get_db_cursor_fails_early sim_driver sample_json_load
                    "my.json" true (fun _ => ret tt) (snd offline_state))
             (fst offline_state) (snd offline_state)
             (Error "Can't connect to MySQL server")
             (snd (connect sim_driver offline_state)) eq_refl eq_refl).
Defined.

Lemma connect_stores_handle_witness :
  connect sim_driver (sample_state []) =
    (Ok (Some 1),
     ({| db_config := db_config (fst (sample_state [])); connection := Some 1 |},
      extend (snd (sample_state [])) {| sim_up := true; sim_open := [1]; sim_next := 2; sim_rejects := [] |}
        [Call_connect sample_args; Call_is_connected 1;
         Printed (Msg_connected (JStr "media"))])) /\
  connect dead_driver (sample_state []) =
    (Ok None,
     ({| db_config := db_config (fst (sample_state [])); connection := Some 1 |},
      extend (snd (sample_state [])) {| sim_up := true; sim_open := [1]; sim_next := 2; sim_rejects := [] |}
        [Call_connect sample_args; Call_is_connected 1])).
Proof.
  split.
  - exact (proj2 (connect_stores_handle sim_driver (sample_state []))
             sample_args 1 {| sim_up := true; sim_open := [1]; sim_next := 2; sim_rejects := [] |} true {| sim_up := true; sim_open := [1]; sim_next := 2; sim_rejects := [] |}
             eq_refl eq_refl eq_refl).
  - exact (proj2 (connect_stores_handle dead_driver (sample_state []))
             sample_args 1 {| sim_up := true; sim_open := [1]; sim_next := 2; sim_rejects := [] |} false {| sim_up := true; sim_open := [1]; sim_next := 2; sim_rejects := [] |}
             eq_refl eq_refl eq_refl).
Defined.

Lemma acquire_cursor_connects_lazily_witness :
  acquire_cursor sim_driver true (sample_state []) =
    (Ok 2,
     ({| db_config := db_config (fst (sample_state [])); connection := Some 1 |},
      extend (snd (sample_state [])) {| sim_up := true; sim_open := [1]; sim_next := 3; sim_rejects := [] |}
        [Call_connect sample_args; Call_is_connected 1;
         Printed (Msg_connected (JStr "media")); Call_cursor 1 true])) /\
  acquire_cursor dead_driver true sample_connected =
    (Ok 3,
     ({| db_config := db_config (fst sample_connected); connection := Some 2 |},
      extend (snd sample_connected) {| sim_up := true; sim_open := [2; 1]; sim_next := 4; sim_rejects := [] |}
        [Call_is_connected 1; Call_connect sample_args; Call_is_connected 2;
         Call_cursor 2 true])) /\
  acquire_cursor sim_driver true offline_state =
    (Raise (Error "Can't connect to MySQL server"),
     (fst offline_state,
      extend (snd offline_state) {| sim_up := false; sim_open := []; sim_next := 1; sim_rejects := [] |}
        [Call_connect sample_args; Printed (Msg_connect_error (Error "Can't connect to MySQL server"))])).
Proof.
  split; [|split].
  - exact (proj1 (acquire_cursor_connects_lazily sim_driver true (sample_state [])
                    sample_args [] (server (snd (sample_state []))) eq_refl
                    (or_introl (conj eq_refl (conj eq_refl eq_refl))))
             1 {| sim_up := true; sim_open := [1]; sim_next := 2; sim_rejects := [] |} true {| sim_up := true; sim_open := [1]; sim_next := 2; sim_rejects := [] |} eq_refl eq_refl).
  - exact (proj1 (acquire_cursor_connects_lazily dead_driver true sample_connected
                    sample_args [Call_is_connected 1]
                    (server (snd sample_connected)) eq_refl
                    (or_intror
                       (ex_intro _ 1 (conj eq_refl (conj eq_refl eq_refl)))))
             2 {| sim_up := true; sim_open := [2; 1]; sim_next := 3; sim_rejects := [] |} false {| sim_up := true; sim_open := [2; 1]; sim_next := 3; sim_rejects := [] |} eq_refl eq_refl).
  - exact (proj2 (acquire_cursor_connects_lazily sim_driver true offline_state
                    sample_args [] (server (snd offline_state)) eq_refl
                    (or_introl (conj eq_refl (conj eq_refl eq_refl))))
             (Error "Can't connect to MySQL server") {| sim_up := false; sim_open := []; sim_next := 1; sim_rejects := [] |} eq_refl).
Defined.

Lemma get_cursor_acquisition_failure_witness :
  get_cursor sim_driver true (fun cur => execute sim_driver cur "DROP TABLE a")
    offline_state =
    (Raise (Error "Can't connect to MySQL server"),
     (fst offline_state,
      extend (snd offline_state) {| sim_up := false; sim_open := []; sim_next := 1; sim_rejects := [] |}
        [Call_connect sample_args; Printed (Msg_connect_error (Error "Can't connect to MySQL server"));
         Printed (Msg_database_error (Error "Can't connect to MySQL server"))])) /\
  get_cursor trusting_driver true
    (fun cur => execute trusting_driver cur "DROP TABLE a")
    (sample_at 1 [] 3 [] []) =
    (Raise (Error "MySQL Connection not available"),
     (fst (sample_at 1 [] 3 [] []),
      extend (snd (sample_at 1 [] 3 [] [])) {| sim_up := true; sim_open := []; sim_next := 3; sim_rejects := [] |}
        [Call_is_connected 1; Call_cursor 1 true; Call_rollback 1])).
Proof.
  split.
  - exact (proj2 (get_cursor_acquisition_failure sim_driver true
                    (fun cur => execute sim_driver cur "DROP TABLE a")
                    offline_state
                    (fst offline_state,
      extend (snd offline_state) {| sim_up := false; sim_open := []; sim_next := 1; sim_rejects := [] |}
        [Call_connect sample_args; Printed (Msg_connect_error (Error "Can't connect to MySQL server"))])
                    (Error "Can't connect to MySQL server") eq_refl)).
  - exact (proj2 (get_cursor_acquisition_failure trusting_driver true
                    (fun cur => execute trusting_driver cur "DROP TABLE a")
                    (sample_at 1 [] 3 [] [])
                    (fst (sample_at 1 [] 3 [] []),
                     extend (snd (sample_at 1 [] 3 [] [])) {| sim_up := true; sim_open := []; sim_next := 3; sim_rejects := [] |}
                       [Call_is_connected 1; Call_cursor 1 true])
                    (Error "MySQL Connection not available") eq_refl)).
Defined.

Lemma get_cursor_returns_only_committed_witness :
  exists cur s1 w2 cnx d3 b d4,
    acquire_cursor sim_driver true (sample_state []) = (Ok cur, s1) /\
    execute sim_driver cur "INSERT INTO a VALUES (1)" (snd s1) = (Ok tt, w2) /\
    connection (fst s1) = Some cnx /\
    drv_commit sim_driver cnx (server w2) = (Ok tt, d3) /\
    drv_cursor_close sim_driver cur d3 = (Ok b, d4) /\
    sample_at 1 [1] 3 []
      [Call_connect sample_args; Call_is_connected 1; Printed (Msg_connected (JStr "media")); Call_cursor 1 true; Call_execute 2 "INSERT INTO a VALUES (1)";
       Call_commit 1; Call_cursor_close 2] =
      (fst s1, extend w2 d4 [Call_commit cnx; Call_cursor_close cur]).
Proof.
  exact (get_cursor_returns_only_committed sim_driver true
           (fun cur => execute sim_driver cur "INSERT INTO a VALUES (1)")
           (sample_state [])
           (sample_at 1 [1] 3 []
              [Call_connect sample_args; Call_is_connected 1; Printed (Msg_connected (JStr "media")); Call_cursor 1 true; Call_execute 2 "INSERT INTO a VALUES (1)";
               Call_commit 1; Call_cursor_close 2])
           tt eq_refl).
Defined.

Lemma execute_schema_returns_only_committed_witness :
  exists schema_sql cur s1 cnx d2 d3 b d4,
    files (snd (sample_state [])) !! "database_schema.sql" = Some (Readable schema_sql) /\
    acquire_cursor sim_driver true (sample_state []) = (Ok cur, s1) /\
    connection (fst s1) = Some cnx /\
    drive sim_driver cur (split_statements schema_sql) (server (snd s1)) =
      (split_statements schema_sql, None, d2) /\
    drv_commit sim_driver cnx d2 = (Ok tt, d3) /\
    drv_cursor_close sim_driver cur d3 = (Ok b, d4) /\
    (sample_at 1 [1] 3 []
              [Call_connect sample_args; Call_is_connected 1; Printed (Msg_connected (JStr "media")); Call_cursor 1 true; Call_execute 2 "CREATE TABLE a(id INT)";
               Call_execute 2 "CREATE TABLE b(id INT)"; Call_commit 1; Call_cursor_close 2;
               Printed (Msg_schema_executed "database_schema.sql")]) =
      (fst s1,
       extend (snd s1) d4
         ((Call_execute cur <$> split_statements schema_sql) ++
          [Call_commit cnx; Call_cursor_close cur;
           Printed (Msg_schema_executed "database_schema.sql")])).
Proof.
  exact (execute_schema_returns_only_committed sim_driver "database_schema.sql"
           (sample_state [])
           (sample_at 1 [1] 3 []
              [Call_connect sample_args; Call_is_connected 1; Printed (Msg_connected (JStr "media")); Call_cursor 1 true; Call_execute 2 "CREATE TABLE a(id INT)";
               Call_execute 2 "CREATE TABLE b(id INT)"; Call_commit 1; Call_cursor_close 2;
               Printed (Msg_schema_executed "database_schema.sql")])
           eq_refl).
Defined.

Lemma test_connection_result_evidence_witness :
  (exists c s0 cur s1 cnx d1 version d2 d3 closed d4,
     connect sim_driver (sample_state []) = (Ok c, s0) /\
     acquire_cursor sim_driver true s0 = (Ok cur, s1) /\
     connection (fst s1) = Some cnx /\
     drv_execute sim_driver cur "SELECT VERSION()" (server (snd s1)) = (Ok tt, d1) /\
     drv_fetchone sim_driver cur d1 = (Ok version, d2) /\
     drv_commit sim_driver cnx d2 = (Ok tt, d3) /\
     drv_cursor_close sim_driver cur d3 = (Ok closed, d4) /\
     match drv_is_connected sim_driver cnx d4 with
     | (false, d5) =>
         (sample_at 1 [] 3 []
      [Call_connect sample_args; Call_is_connected 1; Printed (Msg_connected (JStr "media")); Call_is_connected 1; Call_cursor 1 true;
       Call_execute 2 "SELECT VERSION()"; Call_fetchone 2;
       Printed (Msg_version "{'VERSION()': '8.0.36'}"); Call_commit 1; Call_cursor_close 2; Call_is_connected 1;
       Call_close 1; Printed Msg_closed]) =
           (fst s1,
            extend (snd s1) d5
              [Call_execute cur "SELECT VERSION()"; Call_fetchone cur;
               Printed (Msg_version version); Call_commit cnx;
               Call_cursor_close cur; Call_is_connected cnx])
     | (true, d5) =>
         exists d6,
           drv_close sim_driver cnx d5 = (Ok tt, d6) /\
           (sample_at 1 [] 3 []
      [Call_connect sample_args; Call_is_connected 1; Printed (Msg_connected (JStr "media")); Call_is_connected 1; Call_cursor 1 true;
       Call_execute 2 "SELECT VERSION()"; Call_fetchone 2;
       Printed (Msg_version "{'VERSION()': '8.0.36'}"); Call_commit 1; Call_cursor_close 2; Call_is_connected 1;
       Call_close 1; Printed Msg_closed]) =
             (fst s1,
              extend (snd s1) d6
                [Call_execute cur "SELECT VERSION()"; Call_fetchone cur;
                 Printed (Msg_version version); Call_commit cnx;
                 Call_cursor_close cur; Call_is_connected cnx;
                 Call_close cnx; Printed Msg_closed])
     end) /\
  (exists e sb rest,
     (connect lost_commit_driver ;;
      get_cursor lost_commit_driver true (version_query lost_commit_driver))
       (sample_state []) = (Raise e, sb) /\
     isinstance_Error e = true /\
     fst (sample_at 1 [] 3 []
      [Call_connect sample_args; Call_is_connected 1; Printed (Msg_connected (JStr "media")); Call_is_connected 1; Call_cursor 1 true;
       Call_execute 2 "SELECT VERSION()"; Call_fetchone 2;
       Printed (Msg_version "{'VERSION()': '8.0.36'}"); Call_commit 1; Call_rollback 1;
       Printed (Msg_database_error (Error "Lost connection to MySQL server during query")); Call_cursor_close 2;
       Printed (Msg_test_failed (Error "Lost connection to MySQL server during query")); Call_is_connected 1; Call_close 1;
       Printed Msg_closed]) = fst sb /\
     trace (snd (sample_at 1 [] 3 []
      [Call_connect sample_args; Call_is_connected 1; Printed (Msg_connected (JStr "media")); Call_is_connected 1; Call_cursor 1 true;
       Call_execute 2 "SELECT VERSION()"; Call_fetchone 2;
       Printed (Msg_version "{'VERSION()': '8.0.36'}"); Call_commit 1; Call_rollback 1;
       Printed (Msg_database_error (Error "Lost connection to MySQL server during query")); Call_cursor_close 2;
       Printed (Msg_test_failed (Error "Lost connection to MySQL server during query")); Call_is_connected 1; Call_close 1;
       Printed Msg_closed])) =
       trace (snd sb) ++ Printed (Msg_test_failed e) :: rest /\
     count_event is_commit rest = 0).
Proof.
  split.
  - exact (test_connection_result_evidence sim_driver (sample_state [])
             (sample_at 1 [] 3 []
      [Call_connect sample_args; Call_is_connected 1; Printed (Msg_connected (JStr "media")); Call_is_connected 1; Call_cursor 1 true;
       Call_execute 2 "SELECT VERSION()"; Call_fetchone 2;
       Printed (Msg_version "{'VERSION()': '8.0.36'}"); Call_commit 1; Call_cursor_close 2; Call_is_connected 1;
       Call_close 1; Printed Msg_closed]) true eq_refl).
  - exact (test_connection_result_evidence lost_commit_driver (sample_state [])
             (sample_at 1 [] 3 []
      [Call_connect sample_args; Call_is_connected 1; Printed (Msg_connected (JStr "media")); Call_is_connected 1; Call_cursor 1 true;
       Call_execute 2 "SELECT VERSION()"; Call_fetchone 2;
       Printed (Msg_version "{'VERSION()': '8.0.36'}"); Call_commit 1; Call_rollback 1;
       Printed (Msg_database_error (Error "Lost connection to MySQL server during query")); Call_cursor_close 2;
       Printed (Msg_test_failed (Error "Lost connection to MySQL server during query")); Call_is_connected 1; Call_close 1;
       Printed Msg_closed]) false eq_refl).
Defined.

Lemma get_db_cursor_always_disconnects_witness :
  get_db_cursor sim_driver sample_json_load "my.json" true
    (fun cur => execute sim_driver cur "INSERT INTO a VALUES (1)") (sample_world []) =
    (Ok tt,
     extend (snd (sample_at 1 [1] 3 []
      [Call_connect sample_args; Call_is_connected 1; Printed (Msg_connected (JStr "media")); Call_is_connected 1; Call_cursor 1 true;
       Call_execute 2 "INSERT INTO a VALUES (1)"; Call_commit 1; Call_cursor_close 2])) {| sim_up := true; sim_open := []; sim_next := 3; sim_rejects := [] |}
       [Call_is_connected 1; Call_close 1; Printed Msg_closed]) /\
  get_db_cursor dead_driver sample_json_load "my.json" true
    (fun cur => execute dead_driver cur "INSERT INTO a VALUES (1)") (sample_world []) =
    (Ok tt,
     extend (snd (sample_at 2 [2; 1] 4 []
      [Call_connect sample_args; Call_is_connected 1; Call_is_connected 1;
       Call_connect sample_args; Call_is_connected 2; Call_cursor 2 true;
       Call_execute 3 "INSERT INTO a VALUES (1)"; Call_commit 2; Call_cursor_close 3])) {| sim_up := true; sim_open := [2; 1]; sim_next := 4; sim_rejects := [] |} [Call_is_connected 2]).
Proof.
  split.
  - exact (get_db_cursor_always_disconnects sim_driver sample_json_load "my.json"
             true (fun cur => execute sim_driver cur "INSERT INTO a VALUES (1)")
             (sample_world []) (sample_world [])
             (sample_self "my.json" sample_database) (Ok tt)
             (sample_at 1 [1] 3 []
      [Call_connect sample_args; Call_is_connected 1; Printed (Msg_connected (JStr "media")); Call_is_connected 1; Call_cursor 1 true;
       Call_execute 2 "INSERT INTO a VALUES (1)"; Call_commit 1; Call_cursor_close 2]) eq_refl eq_refl).
  - exact (get_db_cursor_always_disconnects dead_driver sample_json_load "my.json"
             true (fun cur => execute dead_driver cur "INSERT INTO a VALUES (1)")
             (sample_world []) (sample_world [])
             (sample_self "my.json" sample_database) (Ok tt)
             (sample_at 2 [2; 1] 4 []
      [Call_connect sample_args; Call_is_connected 1; Call_is_connected 1;
       Call_connect sample_args; Call_is_connected 2; Call_cursor 2 true;
       Call_execute 3 "INSERT INTO a VALUES (1)"; Call_commit 2; Call_cursor_close 3]) eq_refl eq_refl).
Defined.

Lemma get_db_cursor_returns_only_committed_witness :
  exists db c s0 cur s1 w2 cnx d3 closed d4,
    DatabaseConnection_init sample_json_load "my.json" (sample_world []) =
      (Ok db, sample_world []) /\
    connect sim_driver (db, sample_world []) = (Ok c, s0) /\
    acquire_cursor sim_driver true s0 = (Ok cur, s1) /\
    execute sim_driver cur "INSERT INTO a VALUES (1)" (snd s1) = (Ok tt, w2) /\
    connection (fst s1) = Some cnx /\
    drv_commit sim_driver cnx (server w2) = (Ok tt, d3) /\
    drv_cursor_close sim_driver cur d3 = (Ok closed, d4) /\
    match drv_is_connected sim_driver cnx d4 with
    | (false, d5) =>
        (snd (sample_at 1 [] 3 []
           [Call_connect sample_args; Call_is_connected 1; Printed (Msg_connected (JStr "media")); Call_is_connected 1; Call_cursor 1 true;
            Call_execute 2 "INSERT INTO a VALUES (1)"; Call_commit 1; Call_cursor_close 2;
            Call_is_connected 1; Call_close 1; Printed Msg_closed])) =
          extend w2 d5
            [Call_commit cnx; Call_cursor_close cur; Call_is_connected cnx]
    | (true, d5) =>
        exists d6,
          drv_close sim_driver cnx d5 = (Ok tt, d6) /\
          (snd (sample_at 1 [] 3 []
           [Call_connect sample_args; Call_is_connected 1; Printed (Msg_connected (JStr "media")); Call_is_connected 1; Call_cursor 1 true;
            Call_execute 2 "INSERT INTO a VALUES (1)"; Call_commit 1; Call_cursor_close 2;
            Call_is_connected 1; Call_close 1; Printed Msg_closed])) =
            extend w2 d6
              [Call_commit cnx; Call_cursor_close cur; Call_is_connected cnx;
               Call_close cnx; Printed Msg_closed]
    end.
Proof.
  exact (get_db_cursor_returns_only_committed sim_driver sample_json_load
           "my.json" true (fun cur => execute sim_driver cur "INSERT INTO a VALUES (1)")
           (sample_world [])
           (snd (sample_at 1 [] 3 []
           [Call_connect sample_args; Call_is_connected 1; Printed (Msg_connected (JStr "media")); Call_is_connected 1; Call_cursor 1 true;
            Call_execute 2 "INSERT INTO a VALUES (1)"; Call_commit 1; Call_cursor_close 2;
            Call_is_connected 1; Call_close 1; Printed Msg_closed]))
           tt eq_refl).
Defined.
